(** * pandas_dtype_efficiency: a shallow embedding of [DataFrameChecker]

    The checker of [pandas_dtype_efficiency.py] looks at the columns of a
    pandas DataFrame and proposes smaller dtypes for them.  The DataFrame is
    supplied by pandas; the part of it that the checker touches (column
    selection by dtype, [min], [max], [nunique], [astype]) is modelled below,
    next to the checker itself. *)

From stdpp Require Import gmap strings list fin_maps pretty.
From Stdlib Require Import ZArith Lia SpecFloat.

Local Open Scope Z_scope.

(** ** Exceptions and results *)

Inductive exception :=
| ValueError (msg : string)
| UserWarning (msg : string)
| KeyError (key : string)
| PandasError (msg : string).

Inductive result (A : Type) :=
| Ok (a : A)
| Raise (e : exception).
Arguments Ok {A} a.
Arguments Raise {A} e.

Definition bind {A B} (r : result A) (k : A -> result B) : result B :=
  match r with
  | Ok a => k a
  | Raise e => Raise e
  end.

Notation "'let!' x := r 'in' k" := (bind r (fun x => k))
  (at level 10, x name, r at level 100, k at level 200).

(** The class of an exception, which is what [except] clauses and
    [pytest.raises(expected_exception=...)] look at. *)
Inductive exception_class :=
| ValueError_class | UserWarning_class | KeyError_class | PandasError_class.

Definition class_of (e : exception) : exception_class :=
  match e with
  | ValueError _ => ValueError_class
  | UserWarning _ => UserWarning_class
  | KeyError _ => KeyError_class
  | PandasError _ => PandasError_class
  end.


(** ** The table: dtypes, columns, frames *)

Inductive int_width := W8 | W16 | W32 | W64.
Inductive float_width := F16 | F32 | F64.

Inductive dtype :=
| Int (w : int_width)
| Float (w : float_width)
| Object
| Bool
| Category.

Abbreviation int8 := (Int W8).
Abbreviation int16 := (Int W16).
Abbreviation int32 := (Int W32).
Abbreviation int64 := (Int W64).
Abbreviation float16 := (Float F16).
Abbreviation float32 := (Float F32).
Abbreviation float64 := (Float F64).

Global Instance int_width_eq_dec : EqDecision int_width.
Proof. solve_decision. Defined.
Global Instance float_width_eq_dec : EqDecision float_width.
Proof. solve_decision. Defined.
Global Instance dtype_eq_dec : EqDecision dtype.
Proof. solve_decision. Defined.

(** Width in bits. *)
Definition int_bits (w : int_width) : Z :=
  match w with W8 => 8 | W16 => 16 | W32 => 32 | W64 => 64 end.

Definition float_bits (w : float_width) : Z :=
  match w with F16 => 16 | F32 => 32 | F64 => 64 end.

Global Instance spec_float_eq_dec : EqDecision spec_float.
Proof. solve_decision. Defined.

(** A column.  Integer cells are the integers they denote, float cells are
    IEEE-754 values (sign, mantissa, exponent), object cells are strings or
    missing ([None]/NaN).  These are the numpy-backed columns: an integer
    column has no missing cell.  pandas' nullable extension columns (Int64 and
    the like, which can hold a missing cell among integers) are not part of
    this model; whatever a theorem below says of integer columns is said of
    the numpy-backed ones. *)
Inductive Series :=
| IntSeries (w : int_width) (cells : list Z)
| FloatSeries (w : float_width) (cells : list spec_float)
| ObjectSeries (cells : list (option string))
| BoolSeries (cells : list bool)
| CategorySeries (cells : list (option string)).

Definition dtype_of (s : Series) : dtype :=
  match s with
  | IntSeries w _ => Int w
  | FloatSeries w _ => Float w
  | ObjectSeries _ => Object
  | BoolSeries _ => Bool
  | CategorySeries _ => Category
  end.

(** Number of rows of a column. *)
Definition series_length (s : Series) : nat :=
  match s with
  | IntSeries _ cells => length cells
  | FloatSeries _ cells => length cells
  | ObjectSeries cells => length cells
  | BoolSeries cells => length cells
  | CategorySeries cells => length cells
  end.

(** Columns are named and ordered. *)
Definition DataFrame := list (string * Series).

Definition columns (df : DataFrame) : list string := df.*1.

(** [df[col]], for a frame whose labels are unique (see [unique_columns]);
    with a repeated label pandas answers a frame, not a column, and nothing
    below is claimed for such frames. *)
Fixpoint getitem (df : DataFrame) (col : string) : result Series :=
  match df with
  | [] => Raise (KeyError col)
  | (name, s) :: rest => if decide (name = col) then Ok s else getitem rest col
  end.

(** A cell of an integer column lies in the range of the column's dtype. *)
Definition in_signed_range (w v : Z) : Prop := - 2 ^ (w - 1) <= v <= 2 ^ (w - 1) - 1.

Global Instance in_signed_range_dec w v : Decision (in_signed_range w v).
Proof. unfold in_signed_range. apply _. Defined.

Definition series_wf (s : Series) : Prop :=
  match s with
  | IntSeries w cells => Forall (in_signed_range (int_bits w)) cells
  | _ => True
  end.

(** No two columns carry the same label. *)
Definition unique_columns (df : DataFrame) : Prop := NoDup (columns df).

(** All columns have the same number of rows. *)
Definition same_length (df : DataFrame) : Prop :=
  match df with
  | [] => True
  | first :: _ => Forall (fun p => series_length p.2 = series_length first.2) df
  end.

(** A frame as pandas builds it from a dict of columns: labels are unique,
    every cell fits its column's dtype and the columns are equally long. *)
Definition frame_wf (df : DataFrame) : Prop :=
  unique_columns df /\ Forall (fun p => series_wf p.2) df /\ same_length df.

Global Instance unique_columns_dec df : Decision (unique_columns df).
Proof. unfold unique_columns. apply _. Defined.
Global Instance series_wf_dec s : Decision (series_wf s).
Proof. destruct s; cbn; apply _. Defined.
Global Instance same_length_dec df : Decision (same_length df).
Proof. destruct df; cbn; apply _. Defined.
Global Instance frame_wf_dec df : Decision (frame_wf df).
Proof. unfold frame_wf. apply _. Defined.

(** [select_dtypes(include=data_type)]: pandas reads the strings the checker
    passes as follows: ['float'] stands for float64 and float32, ['int']
    for int32 and int64, ['object'] for the object dtype. *)
Definition dtype_included (data_type : string) (d : dtype) : bool :=
  if decide (data_type = "float") then
    match d with Float F64 | Float F32 => true | _ => false end
  else if decide (data_type = "int") then
    match d with Int W32 | Int W64 => true | _ => false end
  else if decide (data_type = "object") then
    match d with Object => true | _ => false end
  else false.

Definition select_dtypes (df : DataFrame) (include : string) : DataFrame :=
  filter (fun p => dtype_included include (dtype_of p.2) = true) df.

(** [Series.min()] and [Series.max()] of an integer column; an empty column
    has no minimum (pandas answers NaN, written [None] here). *)
Definition list_min (l : list Z) : option Z :=
  match l with
  | [] => None
  | x :: xs => Some (foldl Z.min x xs)
  end.

Definition list_max (l : list Z) : option Z :=
  match l with
  | [] => None
  | x :: xs => Some (foldl Z.max x xs)
  end.

Definition series_min (s : Series) : result (option Z) :=
  match s with
  | IntSeries _ cells => Ok (list_min cells)
  | _ => Raise (PandasError "min of a column that is not an integer column")
  end.

Definition series_max (s : Series) : result (option Z) :=
  match s with
  | IntSeries _ cells => Ok (list_max cells)
  | _ => Raise (PandasError "max of a column that is not an integer column")
  end.

(** [Series.nunique()]: the number of distinct values, missing ones left out
    (pandas' default [dropna=True]). *)
Definition series_nunique (s : Series) : result Z :=
  match s with
  | ObjectSeries cells | CategorySeries cells =>
      Ok (Z.of_nat (length (remove_dups (omap id cells))))
  | _ => Raise (PandasError "nunique of a column that is not a string column")
  end.

(** ** The checker *)

Record DataFrameChecker := {
  _all_possible_improvements : gmap string dtype;
  _dataframe_has_been_analysed : bool;
  _df : DataFrame;
  _categorical_threshold : Z;
  _columns_by_type : gmap string (list string);
  _float_size : Z
}.

(** [_separate_dtypes] *)
Definition _separate_dtypes (df : DataFrame) : gmap string (list string) :=
  foldl
    (fun columns_by_dtype data_type =>
       let relevant_columns := columns (select_dtypes df data_type) in
       match relevant_columns with
       | [] => columns_by_dtype
       | _ => <[data_type := relevant_columns]> columns_by_dtype
       end)
    ∅ ["float"; "int"; "object"]%string.

(** [__init__] *)
Definition __init__ (df : DataFrame) (categorical_threshold float_size : Z)
  : result DataFrameChecker :=
  let columns_by_type := _separate_dtypes df in
  if negb (bool_decide (float_size ∈ [16; 32; 64])) then
    Raise (ValueError "float_size must correspond to a numpy.float (one of 16, 32, or 64)")
  else
    Ok {| _all_possible_improvements := ∅;
          _dataframe_has_been_analysed := false;
          _df := df;
          _categorical_threshold := categorical_threshold;
          _columns_by_type := columns_by_type;
          _float_size := float_size |}.

(** ** The three analyzers *)

(** Python's [d[k]] on a dict. *)
Definition dict_get {K V} `{Countable K} (d : gmap K V) (k : K) (shown : string)
  : result V :=
  match d !! k with
  | Some v => Ok v
  | None => Raise (KeyError shown)
  end.

(** Range of values which different integer sizes can accommodate *)
Definition integer_ranges : gmap string Z :=
  list_to_map
    [("8_min", -128); ("8_max", 127);
     ("16_min", -32768); ("16_max", 32767);
     ("32_min", -2147483648); ("32_max", 2147483647)]%string.

(** Mapping between integer size and numpy type *)
Definition integer_size_to_numpy_type : gmap Z dtype :=
  list_to_map [(8, int8); (16, int16); (32, int32)].

(** [min_val >= bound]; a comparison with NaN is false. *)
Definition ge_bound (val : option Z) (bound : Z) : bool :=
  match val with
  | Some v => bool_decide (bound <= v)
  | None => false
  end.

Definition le_bound (val : option Z) (bound : Z) : bool :=
  match val with
  | Some v => bool_decide (v <= bound)
  | None => false
  end.

(** The inner loop [for int_size in [8, 16, 32]: ... break] for one column. *)
Fixpoint try_int_sizes (col : string) (min_val max_val : option Z)
    (int_sizes : list Z) (possible_improvements : gmap string dtype)
  : result (gmap string dtype) :=
  match int_sizes with
  | [] => Ok possible_improvements
  | int_size :: later =>
      let! lo := dict_get integer_ranges (pretty int_size +:+ "_min")
                   (pretty int_size +:+ "_min") in
      let! fits :=
        (if ge_bound min_val lo then
           let! hi := dict_get integer_ranges (pretty int_size +:+ "_max")
                        (pretty int_size +:+ "_max") in
           Ok (le_bound max_val hi)
         else Ok false) in
      if fits : bool then
        let! ty := dict_get integer_size_to_numpy_type int_size (pretty int_size) in
        Ok (<[col := ty]> possible_improvements)
      else try_int_sizes col min_val max_val later possible_improvements
  end.

(** The outer loop [for col in int_columns]. *)
Fixpoint int_columns_loop (df : DataFrame) (int_columns : list string)
    (possible_improvements : gmap string dtype) : result (gmap string dtype) :=
  match int_columns with
  | [] => Ok possible_improvements
  | col :: later =>
      let! s := getitem df col in
      let! min_val := series_min s in
      let! s' := getitem df col in
      let! max_val := series_max s' in
      let! updated := try_int_sizes col min_val max_val [8; 16; 32] possible_improvements in
      int_columns_loop df later updated
  end.

(** [_check_if_integer_sizes_can_be_reduced] *)
Definition _check_if_integer_sizes_can_be_reduced (self : DataFrameChecker)
  : result (gmap string dtype) :=
  let possible_improvements : gmap string dtype := ∅ in
  match _columns_by_type self !! "int"%string with
  | None | Some [] => Ok possible_improvements
  | Some int_columns => int_columns_loop (_df self) int_columns possible_improvements
  end.

(** The loop of [_check_if_strings_could_be_categorical]. *)
Fixpoint string_columns_loop (df : DataFrame) (categorical_threshold : Z)
    (string_columns : list string) (possible_improvements : gmap string dtype)
  : result (gmap string dtype) :=
  match string_columns with
  | [] => Ok possible_improvements
  | col :: later =>
      let! s := getitem df col in
      let! distinct := series_nunique s in
      string_columns_loop df categorical_threshold later
        (if bool_decide (distinct <= categorical_threshold)
         then <[col := Category]> possible_improvements
         else possible_improvements)
  end.

(** [_check_if_strings_could_be_categorical] *)
Definition _check_if_strings_could_be_categorical (self : DataFrameChecker)
  : result (gmap string dtype) :=
  let possible_improvements : gmap string dtype := ∅ in
  match _columns_by_type self !! "object"%string with
  | None | Some [] => Ok possible_improvements
  | Some string_columns =>
      string_columns_loop (_df self) (_categorical_threshold self) string_columns
        possible_improvements
  end.

(** Mapping between desired float size and numpy type *)
Definition float_size_to_numpy_type : gmap Z dtype :=
  list_to_map [(16, float16); (32, float32)].

(** The loop of [_flag_float_column_improvements]. *)
Fixpoint float_columns_loop (float_size : Z) (float_columns : list string)
    (possible_improvements : gmap string dtype) : result (gmap string dtype) :=
  match float_columns with
  | [] => Ok possible_improvements
  | col :: later =>
      let! ty := dict_get float_size_to_numpy_type float_size (pretty float_size) in
      float_columns_loop float_size later (<[col := ty]> possible_improvements)
  end.

(** [_flag_float_column_improvements] *)
Definition _flag_float_column_improvements (self : DataFrameChecker)
  : result (gmap string dtype) :=
  let possible_improvements : gmap string dtype := ∅ in
  if bool_decide (_float_size self = 64) then Ok possible_improvements
  else
    match _columns_by_type self !! "float"%string with
    | None | Some [] => Ok possible_improvements
    | Some float_columns =>
        float_columns_loop (_float_size self) float_columns possible_improvements
    end.

(** [get_possible_dtypes] *)
Definition get_possible_dtypes (self : DataFrameChecker) : gmap string dtype :=
  _all_possible_improvements self.

(** [dict.update]: the entries of [other] are written over those of [d]. *)
Definition update {V} (d other : gmap string V) : gmap string V := other ∪ d.

Definition with_improvements (self : DataFrameChecker)
    (improvements : gmap string dtype) : DataFrameChecker :=
  {| _all_possible_improvements := improvements;
     _dataframe_has_been_analysed := _dataframe_has_been_analysed self;
     _df := _df self;
     _categorical_threshold := _categorical_threshold self;
     _columns_by_type := _columns_by_type self;
     _float_size := _float_size self |}.

Definition with_analysed (self : DataFrameChecker) (b : bool) : DataFrameChecker :=
  {| _all_possible_improvements := _all_possible_improvements self;
     _dataframe_has_been_analysed := b;
     _df := _df self;
     _categorical_threshold := _categorical_threshold self;
     _columns_by_type := _columns_by_type self;
     _float_size := _float_size self |}.

(** What a method call leaves behind: the checker as the call left it, the
    lines it printed, and its return value or the exception it raised. *)
Record outcome (A : Type) := {
  after : DataFrameChecker;
  printed : list string;
  returned : result A
}.
Arguments after {A} o.
Arguments printed {A} o.
Arguments returned {A} o.

(** [identify_possible_improvements] *)
Definition identify_possible_improvements (self : DataFrameChecker) : outcome unit :=
  let out := ["Checking float columns if reduced precision requested"]%string in
  match _flag_float_column_improvements self with
  | Raise e => {| after := self; printed := out; returned := Raise e |}
  | Ok float_improvements =>
  let self := with_improvements self
                (update (_all_possible_improvements self) float_improvements) in
  let out := out ++ ["Checking integer columns to see whether a smaller size can be used"]%string in
  match _check_if_integer_sizes_can_be_reduced self with
  | Raise e => {| after := self; printed := out; returned := Raise e |}
  | Ok integer_improvements =>
  let self := with_improvements self
                (update (_all_possible_improvements self) integer_improvements) in
  let out := out ++ ["Checking string columns to see if they be assigned to repeated categories"]%string in
  match _check_if_strings_could_be_categorical self with
  | Raise e => {| after := self; printed := out; returned := Raise e |}
  | Ok categorical_improvements =>
  let self := with_improvements self
                (update (_all_possible_improvements self) categorical_improvements) in
  let self := with_analysed self true in
  {| after := self; printed := out ++ ["Done"]%string; returned := Ok tt |}
  end end end.

(** ** Casting *)

(** Two's-complement reading of the low [w] bits, which is what a numpy
    integer cast keeps. *)
Definition wrap (w v : Z) : Z := (v + 2 ^ (w - 1)) mod 2 ^ w - 2 ^ (w - 1).

(** Precision and exponent bound of the IEEE-754 binary formats. *)
Definition float_format (w : float_width) : Z * Z :=
  match w with
  | F16 => (11, 16)
  | F32 => (24, 128)
  | F64 => (53, 1024)
  end.

(** Rounding a float cell to another format (to nearest, ties to even). *)
Definition float_convert (prec emax : Z) (x : spec_float) : spec_float :=
  match x with
  | S754_finite s m e => binary_round prec emax s m e
  | _ => x
  end.

(** [Series.astype(target)], for the casts the checker asks for: integer to
    integer, float to float, strings to categorical, and a cast to the dtype
    the column already has. *)
Definition series_astype (s : Series) (target : dtype) : result Series :=
  if decide (dtype_of s = target) then Ok s
  else
    match s, target with
    | IntSeries _ cells, Int w => Ok (IntSeries w (wrap (int_bits w) <$> cells))
    | FloatSeries _ cells, Float w =>
        let '(prec, emax) := float_format w in
        Ok (FloatSeries w (float_convert prec emax <$> cells))
    | ObjectSeries cells, Category => Ok (CategorySeries cells)
    | _, _ => Raise (PandasError "cast outside the model")
    end.

(** The column-by-column pass of [DataFrame.astype(dtype=mapping)]: columns
    named in the mapping are cast, the others are taken over as they are. *)
Fixpoint astype_columns (df : DataFrame) (mapping : gmap string dtype)
  : result DataFrame :=
  match df with
  | [] => Ok []
  | (name, s) :: rest =>
      let! s' := match mapping !! name with
                 | Some target => series_astype s target
                 | None => Ok s
                 end in
      let! rest' := astype_columns rest mapping in
      Ok ((name, s') :: rest')
  end.

(** [DataFrame.astype(dtype=mapping)]: every key of the mapping has to be a
    column label. *)
Definition astype (df : DataFrame) (mapping : gmap string dtype) : result DataFrame :=
  match filter (fun k => k ∉ columns df) (map_to_list mapping).*1 with
  | k :: _ => Raise (KeyError k)
  | [] => astype_columns df mapping
  end.

(** [cast_dataframe_to_lower_memory_version].  The two lines it prints give
    the memory of both frames as formatted floating-point numbers and are
    left out; they touch neither the checker nor the frame returned. *)
Definition cast_dataframe_to_lower_memory_version (self : DataFrameChecker)
  : outcome DataFrame :=
  if negb (_dataframe_has_been_analysed self) then
    {| after := self; printed := [];
       returned := Raise (UserWarning
         ("DataFrame has not been analysed for improvements yet. Run `identify_possible_improvements` method "
          +:+ "first.")) |}
  else if bool_decide (_all_possible_improvements self = ∅) then
    {| after := self; printed := [];
       returned := Raise (UserWarning
         "No possible improvements have been found after analysing DataFrame.") |}
  else
    {| after := self; printed := [];
       returned := astype (_df self) (_all_possible_improvements self) |}.

(** ** Calls from outside *)

Inductive call := Identify | GetPossibleDtypes | Cast.

Global Instance call_eq_dec : EqDecision call.
Proof. solve_decision. Defined.

(** The checker after one call; what the call returned is dropped here. *)
Definition step (self : DataFrameChecker) (c : call) : DataFrameChecker :=
  match c with
  | Identify => after (identify_possible_improvements self)
  | GetPossibleDtypes => self
  | Cast => after (cast_dataframe_to_lower_memory_version self)
  end.

Definition run (self : DataFrameChecker) (calls : list call) : DataFrameChecker :=
  foldl step self calls.

(** A checker built over [df] by [__init__] and then used through its
    public methods. *)
Definition reachable (df : DataFrame) (self : DataFrameChecker) : Prop :=
  exists categorical_threshold float_size fresh calls,
    __init__ df categorical_threshold float_size = Ok fresh /\ self = run fresh calls.

(** ** Names the specification uses *)

Definition InvalidConfiguration : exception :=
  ValueError "float_size must correspond to a numpy.float (one of 16, 32, or 64)".

Definition NotAnalyzedError : exception :=
  UserWarning
    "DataFrame has not been analysed for improvements yet. Run `identify_possible_improvements` method first.".

Definition NoImprovementsFoundError : exception :=
  UserWarning "No possible improvements have been found after analysing DataFrame.".

(** The columns of one kind, as the analyzers read them off the cached
    partition ([self._columns_by_type.get(kind)], absent meaning none). *)
Definition columns_of_kind (self : DataFrameChecker) (kind : string) : list string :=
  default [] (_columns_by_type self !! kind).

(** Candidate widths of the integer analyzer and their signed ranges, as the
    specification lists them. *)
Definition candidate_widths : list int_width := [W8; W16; W32].

Definition signed_range (w : int_width) : Z * Z :=
  match w with
  | W8 => (-128, 127)
  | W16 => (-32768, 32767)
  | W32 => (-2147483648, 2147483647)
  | W64 => (-9223372036854775808, 9223372036854775807)
  end.

(** The range of width [w] contains both [lo] and [hi], bounds included. *)
Definition contains (w : int_width) (lo hi : Z) : Prop :=
  (signed_range w).1 <= lo /\ hi <= (signed_range w).2.

Global Instance contains_dec w lo hi : Decision (contains w lo hi).
Proof. unfold contains. apply _. Defined.

(** [m] is the exact minimum (maximum) of the cells. *)
Definition is_minimum (m : Z) (cells : list Z) : Prop :=
  m ∈ cells /\ forall v, v ∈ cells -> m <= v.

Definition is_maximum (m : Z) (cells : list Z) : Prop :=
  m ∈ cells /\ forall v, v ∈ cells -> v <= m.

(** The smallest candidate whose range contains the minimum and the maximum,
    if there is one. *)
Definition smallest_fitting_width (lo hi : Z) : option int_width :=
  if decide (contains W8 lo hi) then Some W8
  else if decide (contains W16 lo hi) then Some W16
  else if decide (contains W32 lo hi) then Some W32
  else None.

(** ** Auxiliary definitions for the proofs *)

(** What the inner loop settles on, from the [min()] and [max()] it is given. *)
Definition chosen_width (min_val max_val : option Z) : option int_width :=
  match min_val, max_val with
  | Some lo, Some hi => smallest_fitting_width lo hi
  | _, _ => None
  end.

Definition int_answer (df : DataFrame) (col : string) : option dtype :=
  match getitem df col with
  | Ok (IntSeries _ cells) => Int <$> chosen_width (list_min cells) (list_max cells)
  | _ => None
  end.

Definition string_answer (df : DataFrame) (categorical_threshold : Z) (col : string)
  : option dtype :=
  match getitem df col with
  | Ok (ObjectSeries cells) =>
      if decide (Z.of_nat (length (remove_dups (omap id cells))) <= categorical_threshold)
      then Some Category else None
  | _ => None
  end.

(** A mapping after a loop: the loop's answer where there is one, the old
    entry elsewhere. *)
Definition written (cols : list string) (answer : string -> option dtype)
    (acc : gmap string dtype) (k : string) : option dtype :=
  if decide (k ∈ cols) then
    match answer k with
    | Some t => Some t
    | None => acc !! k
    end
  else acc !! k.

(** A column can be cast to the dtype recommended for it. *)
Definition compatible (s : Series) (t : dtype) : Prop :=
  match s, t with
  | IntSeries _ _, Int _ => True
  | FloatSeries _ _, Float _ => True
  | ObjectSeries _, Category => True
  | _, _ => False
  end.

(** The entry the float analyzer writes for every float column. *)
Definition float_answer (float_size : Z) : option dtype :=
  if decide (float_size = 64) then None else float_size_to_numpy_type !! float_size.

(** The three analyzers' outputs, entry by entry. *)
Definition float_entry (self : DataFrameChecker) (k : string) : option dtype :=
  if decide (k ∈ columns_of_kind self "float") then float_answer (_float_size self)
  else None.

Definition int_entry (self : DataFrameChecker) (k : string) : option dtype :=
  if decide (k ∈ columns_of_kind self "int") then int_answer (_df self) k else None.

Definition string_entry (self : DataFrameChecker) (k : string) : option dtype :=
  if decide (k ∈ columns_of_kind self "object")
  then string_answer (_df self) (_categorical_threshold self) k
  else None.

(** What holds of every checker in use: it keeps its frame, partition and
    float size, holds no recommendation before the first analysis, and every
    recommendation it holds is the current answer of one of the analyzers. *)
Record checker_inv (df : DataFrame) (self : DataFrameChecker) : Prop := {
  inv_df : _df self = df;
  inv_columns : _columns_by_type self = _separate_dtypes df;
  inv_float_size : _float_size self ∈ [16; 32; 64];
  inv_unanalysed :
    _dataframe_has_been_analysed self = false -> _all_possible_improvements self = ∅;
  inv_entries :
    forall col t, _all_possible_improvements self !! col = Some t ->
                  float_entry self col = Some t \/ int_entry self col = Some t \/
                  string_entry self col = Some t
}.

Definition progress_lines : list string :=
  ["Checking float columns if reduced precision requested";
   "Checking integer columns to see whether a smaller size can be used";
   "Checking string columns to see if they be assigned to repeated categories";
   "Done"]%string.

(** An entry after merging: the string analyzer's if it has one, else the
    integer analyzer's, else the float analyzer's, else the old one. *)
Definition merged_entry (self : DataFrameChecker) (k : string) : option dtype :=
  match string_entry self k with
  | Some t => Some t
  | None =>
      match int_entry self k with
      | Some t => Some t
      | None =>
          match float_entry self k with
          | Some t => Some t
          | None => _all_possible_improvements self !! k
          end
      end
  end.

(** How a column of the new frame relates to the column it comes from. *)
Definition cast_of (mapping : gmap string dtype) (old new : string * Series) : Prop :=
  new.1 = old.1 /\
  match mapping !! old.1 with
  | Some target => series_astype old.2 target = Ok new.2
  | None => new.2 = old.2
  end.

(** ** Frames used as examples *)

Definition half : spec_float := S754_finite false 4503599627370496 (-53).

(** The frame of the test suite, with five rows instead of ten. *)
Definition MOCK_DF : DataFrame :=
  [("floats", FloatSeries F64 [SFopp half; S754_zero false; S754_zero false; S754_zero false; half]);
   ("int_smaller_than_int8", IntSeries W64 [-128; 0; 0; 0; 127]);
   ("int_smaller_than_int16", IntSeries W64 [-32768; 0; 0; 0; 32767]);
   ("int_smaller_than_int32", IntSeries W64 [-2147483648; 0; 0; 0; 2147483647]);
   ("int_smaller_than_int64",
    IntSeries W64 [-9223372036854775808; 0; 0; 0; 9223372036854775807]);
   ("category_strings", ObjectSeries [Some "C1"; Some "C2"; Some "C1"; Some "C2"; Some "C1"]);
   ("varied_strings", ObjectSeries [Some "a"; Some "b"; Some "c"; Some "d"; Some "e"]);
   ("ineligible_column", BoolSeries [true; false; true; false; true])]%string.

(** What materialization makes of [MOCK_DF] under the default
    configuration. *)
Definition LOWER_MEMORY_DF : DataFrame :=
  [("floats", FloatSeries F16 [S754_finite true 1024 (-11); S754_zero false;
                               S754_zero false; S754_zero false;
                               S754_finite false 1024 (-11)]);
   ("int_smaller_than_int8", IntSeries W8 [-128; 0; 0; 0; 127]);
   ("int_smaller_than_int16", IntSeries W16 [-32768; 0; 0; 0; 32767]);
   ("int_smaller_than_int32", IntSeries W32 [-2147483648; 0; 0; 0; 2147483647]);
   ("int_smaller_than_int64",
    IntSeries W64 [-9223372036854775808; 0; 0; 0; 9223372036854775807]);
   ("category_strings", CategorySeries [Some "C1"; Some "C2"; Some "C1"; Some "C2"; Some "C1"]);
   ("varied_strings", CategorySeries [Some "a"; Some "b"; Some "c"; Some "d"; Some "e"]);
   ("ineligible_column", BoolSeries [true; false; true; false; true])]%string.

(** Mock data where no improvements can be made *)
Definition MOCK_DF_NO_IMPROVEMENTS : DataFrame :=
  [("bool_1", BoolSeries [true; false]); ("bool_2", BoolSeries [true; false])]%string.

(** A frame whose only column is a 32-bit integer column with a cell that
    does not fit 16 bits. *)
Definition NARROW_DF : DataFrame := [("a", IntSeries W32 [100000; -7])]%string.

(** A string column in which every cell is missing. *)
Definition MISSING_DF : DataFrame := [("s", ObjectSeries [None; None])]%string.

(** Two string columns: one in which every cell is missing, one with a
    value. *)
Definition HALF_MISSING_DF : DataFrame :=
  [("s", ObjectSeries [None; None]); ("t", ObjectSeries [Some "a"; None])]%string.

(** A checker as [__init__] leaves it. *)
Definition fresh_checker (df : DataFrame) (categorical_threshold float_size : Z)
  : DataFrameChecker :=
  {| _all_possible_improvements := ∅;
     _dataframe_has_been_analysed := false;
     _df := df;
     _categorical_threshold := categorical_threshold;
     _columns_by_type := _separate_dtypes df;
     _float_size := float_size |}.

(** ** Definitions for the further properties *)

(** The three strings [_separate_dtypes] asks pandas about. *)
Definition tracked_kinds : list string := ["float"; "int"; "object"]%string.

(** A frame with one float column, one 64-bit integer column too wide for 32
    bits, and one boolean column. *)
Definition FLOAT_DF : DataFrame :=
  [("x", FloatSeries F64 [half; S754_zero false]);
   ("big", IntSeries W64 [0; 4294967296]);
   ("flag", BoolSeries [true; false])]%string.

(** * Properties *)

(** ** The table *)

Section Frames.
Implicit Types (df : DataFrame) (col : string) (s : Series).

Lemma getitem_Ok_elem df col s : getitem df col = Ok s -> (col, s) ∈ df.
Proof.
  induction df as [|[name s0] rest IH]; simpl; [discriminate|].
  case_decide as Hn.
  - intros [= ->]. subst. left.
  - intros H. right. auto.
Qed.

Lemma getitem_NoDup df col s :
  NoDup (columns df) -> (col, s) ∈ df -> getitem df col = Ok s.
Proof.
  induction df as [|[name s0] rest IH]; simpl.
  - intros _ H. inversion H.
  - rewrite NoDup_cons. intros [Hfresh Hnd] Hin.
    apply elem_of_cons in Hin as [[= -> ->]|Hin].
    + by rewrite decide_True.
    + case_decide as Hn; [|by apply IH].
      subst. exfalso. apply Hfresh.
      apply list_elem_of_fmap. by exists (col, s).
Qed.

Lemma getitem_columns df col s : getitem df col = Ok s -> col ∈ columns df.
Proof.
  intros H%getitem_Ok_elem. apply list_elem_of_fmap. by exists (col, s).
Qed.

Lemma select_dtypes_elem df kind col :
  col ∈ columns (select_dtypes df kind) <->
  exists s, (col, s) ∈ df /\ dtype_included kind (dtype_of s) = true.
Proof.
  unfold columns, select_dtypes. rewrite list_elem_of_fmap. split.
  - intros [[c s] [-> [H1 H2]%list_elem_of_filter]]. by exists s.
  - intros (s & H1 & H2). exists (col, s). split; [done|].
    by apply list_elem_of_filter.
Qed.

Lemma separate_dtypes_lookup df kind :
  kind ∈ ["float"; "int"; "object"]%string ->
  default [] (_separate_dtypes df !! kind) = columns (select_dtypes df kind).
Proof.
  intros Hk. unfold _separate_dtypes. simpl.
  destruct (columns (select_dtypes df "float")) eqn:Ef,
           (columns (select_dtypes df "int")) eqn:Ei,
           (columns (select_dtypes df "object")) eqn:Eo;
    repeat (apply elem_of_cons in Hk as [->|Hk]);
    try (by inversion Hk);
    rewrite ?Ef, ?Ei, ?Eo; by simplify_map_eq.
Qed.

(** Kinds with no column are absent from the partition. *)
Lemma separate_dtypes_no_empty df kind :
  _separate_dtypes df !! kind <> Some [].
Proof.
  unfold _separate_dtypes. simpl.
  destruct (columns (select_dtypes df "float")) eqn:Ef,
           (columns (select_dtypes df "int")) eqn:Ei,
           (columns (select_dtypes df "object")) eqn:Eo;
    repeat (rewrite lookup_insert; case_decide); rewrite ?lookup_empty; done.
Qed.
End Frames.

(** ** Minimum and maximum of a column *)

Section Extrema.
Implicit Types (cells : list Z) (m x : Z).

Lemma foldl_min_init cells x : foldl Z.min x cells <= x.
Proof.
  revert x. induction cells as [|y rest IH]; intros x; simpl; [lia|].
  specialize (IH (Z.min x y)). lia.
Qed.

Lemma foldl_min_lower cells x v :
  v ∈ x :: cells -> foldl Z.min x cells <= v.
Proof.
  revert x. induction cells as [|y rest IH]; intros x; simpl.
  - intros ->%list_elem_of_singleton. lia.
  - intros Hv. apply elem_of_cons in Hv as [->|Hv].
    + pose proof (foldl_min_init rest (Z.min x y)). lia.
    + apply elem_of_cons in Hv as [->|Hv].
      * pose proof (foldl_min_init rest (Z.min x y)). lia.
      * apply IH. by right.
Qed.

Lemma foldl_min_elem cells x : foldl Z.min x cells ∈ x :: cells.
Proof.
  revert x. induction cells as [|y rest IH]; intros x; simpl; [left|].
  specialize (IH (Z.min x y)).
  apply elem_of_cons in IH as [->|IH]; [|by do 2 right].
  destruct (Z.min_spec x y) as [[_ ->]|[_ ->]]; [left|right; left].
Qed.

Lemma foldl_max_init cells x : x <= foldl Z.max x cells.
Proof.
  revert x. induction cells as [|y rest IH]; intros x; simpl; [lia|].
  specialize (IH (Z.max x y)). lia.
Qed.

Lemma foldl_max_upper cells x v :
  v ∈ x :: cells -> v <= foldl Z.max x cells.
Proof.
  revert x. induction cells as [|y rest IH]; intros x; simpl.
  - intros ->%list_elem_of_singleton. lia.
  - intros Hv. apply elem_of_cons in Hv as [->|Hv].
    + pose proof (foldl_max_init rest (Z.max x y)). lia.
    + apply elem_of_cons in Hv as [->|Hv].
      * pose proof (foldl_max_init rest (Z.max x y)). lia.
      * apply IH. by right.
Qed.

Lemma foldl_max_elem cells x : foldl Z.max x cells ∈ x :: cells.
Proof.
  revert x. induction cells as [|y rest IH]; intros x; simpl; [left|].
  specialize (IH (Z.max x y)).
  apply elem_of_cons in IH as [->|IH]; [|by do 2 right].
  destruct (Z.max_spec x y) as [[_ ->]|[_ ->]]; [right; left|left].
Qed.

(** [min()] answers the exact minimum, and only an empty column has none. *)
Lemma list_min_is_minimum cells m :
  list_min cells = Some m <-> is_minimum m cells.
Proof.
  destruct cells as [|x rest]; simpl.
  - split; [discriminate|]. intros [H _]. inversion H.
  - split.
    + intros [= <-]. split; [apply foldl_min_elem|apply foldl_min_lower].
    + intros [Hin Hlow]. f_equal.
      pose proof (foldl_min_elem rest x) as H1.
      pose proof (foldl_min_lower rest x m Hin) as H2.
      specialize (Hlow _ H1). lia.
Qed.

Lemma list_max_is_maximum cells m :
  list_max cells = Some m <-> is_maximum m cells.
Proof.
  destruct cells as [|x rest]; simpl.
  - split; [discriminate|]. intros [H _]. inversion H.
  - split.
    + intros [= <-]. split; [apply foldl_max_elem|apply foldl_max_upper].
    + intros [Hin Hup]. f_equal.
      pose proof (foldl_max_elem rest x) as H1.
      pose proof (foldl_max_upper rest x m Hin) as H2.
      specialize (Hup _ H1). lia.
Qed.

Lemma list_min_None cells : list_min cells = None <-> cells = [].
Proof. by destruct cells. Qed.

Lemma list_max_None cells : list_max cells = None <-> cells = [].
Proof. by destruct cells. Qed.
End Extrema.

(** ** The integer analyzer *)

Section IntegerAnalyzer.
Implicit Types (df : DataFrame) (col : string) (acc : gmap string dtype).

Lemma range_key (int_size : Z) (suffix key : string) :
  pretty int_size +:+ suffix = key ->
  dict_get integer_ranges (pretty int_size +:+ suffix) (pretty int_size +:+ suffix)
  = dict_get integer_ranges key key.
Proof. by intros ->. Qed.

Lemma try_int_sizes_spec col min_val max_val acc :
  try_int_sizes col min_val max_val [8; 16; 32] acc =
  Ok (match chosen_width min_val max_val with
      | Some w => <[col := Int w]> acc
      | None => acc
      end).
Proof.
  cbn [try_int_sizes].
  rewrite (range_key 8 "_min" "8_min"), (range_key 8 "_max" "8_max"),
    (range_key 16 "_min" "16_min"), (range_key 16 "_max" "16_max"),
    (range_key 32 "_min" "32_min"), (range_key 32 "_max" "32_max")
    by (vm_compute; reflexivity).
  replace (dict_get integer_ranges "8_min" "8_min") with (Ok (-128)) by reflexivity.
  replace (dict_get integer_ranges "8_max" "8_max") with (Ok 127) by reflexivity.
  replace (dict_get integer_ranges "16_min" "16_min") with (Ok (-32768)) by reflexivity.
  replace (dict_get integer_ranges "16_max" "16_max") with (Ok 32767) by reflexivity.
  replace (dict_get integer_ranges "32_min" "32_min") with (Ok (-2147483648)) by reflexivity.
  replace (dict_get integer_ranges "32_max" "32_max") with (Ok 2147483647) by reflexivity.
  replace (dict_get integer_size_to_numpy_type 8 (pretty 8)) with (Ok int8)
    by reflexivity.
  replace (dict_get integer_size_to_numpy_type 16 (pretty 16)) with (Ok int16)
    by reflexivity.
  replace (dict_get integer_size_to_numpy_type 32 (pretty 32)) with (Ok int32)
    by reflexivity.
  cbn [bind].
  destruct min_val as [lo|], max_val as [hi|]; cbn [ge_bound le_bound chosen_width];
    unfold smallest_fitting_width, contains; cbn [signed_range fst snd];
    repeat case_bool_decide; cbn [bind];
    repeat (case_decide; try lia); try reflexivity; try lia.
Qed.
End IntegerAnalyzer.

(** ** The three loops

    Each loop walks the columns of one kind and writes an entry for some of
    them; [int_answer], [string_answer] say which entry, column by column. *)

Section Loops.
Implicit Types (df : DataFrame) (col k : string) (acc m : gmap string dtype).

Lemma written_nil answer acc k : written [] answer acc k = acc !! k.
Proof. unfold written. case_decide as H; [inversion H|done]. Qed.

Lemma written_step col later answer acc k :
  written later answer
    (match answer col with Some t => <[col := t]> acc | None => acc end) k
  = written (col :: later) answer acc k.
Proof.
  unfold written.
  destruct (decide (k = col)) as [->|Hne].
  - rewrite (decide_True (P := col ∈ col :: later)) by left.
    destruct (answer col) as [t|] eqn:E.
    + rewrite lookup_insert_eq. by case_decide.
    + by case_decide.
  - assert (acc' : (match answer col with Some t => <[col := t]> acc | None => acc end)
                   !! k = acc !! k).
    { destruct (answer col); [by rewrite lookup_insert_ne|done]. }
    rewrite acc'.
    destruct (decide (k ∈ later)) as [Hin|Hout].
    + by rewrite (decide_True (P := k ∈ col :: later)) by by right.
    + rewrite (decide_False (P := k ∈ col :: later)); [done|].
      intros [->|H]%elem_of_cons; done.
Qed.

Lemma int_columns_loop_spec df cols acc :
  (forall col, col ∈ cols -> exists w cells, getitem df col = Ok (IntSeries w cells)) ->
  exists m, int_columns_loop df cols acc = Ok m /\
            forall k, m !! k = written cols (int_answer df) acc k.
Proof.
  revert acc. induction cols as [|col later IH]; intros acc Hint.
  - exists acc. split; [done|]. intros k. by rewrite written_nil.
  - destruct (Hint col) as (w & cells & Hget); [left|].
    cbn [int_columns_loop]. rewrite Hget. cbn [bind series_min series_max].
    rewrite try_int_sizes_spec. cbn [bind].
    destruct (IH (match chosen_width (list_min cells) (list_max cells) with
                  | Some w0 => <[col := Int w0]> acc
                  | None => acc
                  end)) as (m & Hm & Hlook).
    { intros c Hc. apply Hint. by right. }
    exists m. split; [done|]. intros k. rewrite Hlook, <- written_step.
    unfold int_answer at 3. rewrite Hget.
    by destruct (chosen_width (list_min cells) (list_max cells)).
Qed.

Lemma string_columns_loop_spec df threshold cols acc :
  (forall col, col ∈ cols -> exists cells, getitem df col = Ok (ObjectSeries cells)) ->
  exists m, string_columns_loop df threshold cols acc = Ok m /\
            forall k, m !! k = written cols (string_answer df threshold) acc k.
Proof.
  revert acc. induction cols as [|col later IH]; intros acc Hobj.
  - exists acc. split; [done|]. intros k. by rewrite written_nil.
  - destruct (Hobj col) as (cells & Hget); [left|].
    cbn [string_columns_loop]. rewrite Hget. cbn [bind series_nunique].
    match goal with |- context [string_columns_loop _ _ _ ?a] =>
      destruct (IH a) as (m & Hm & Hlook) end.
    { intros c Hc. apply Hobj. by right. }
    exists m. split; [done|]. intros k. rewrite Hlook, <- written_step.
    unfold string_answer at 3. rewrite Hget.
    case_bool_decide; case_decide; done.
Qed.

Lemma float_columns_loop_spec float_size t cols acc :
  float_size_to_numpy_type !! float_size = Some t ->
  exists m, float_columns_loop float_size cols acc = Ok m /\
            forall k, m !! k = written cols (fun _ => Some t) acc k.
Proof.
  intros Ht. revert acc. induction cols as [|col later IH]; intros acc.
  - exists acc. split; [done|]. intros k. by rewrite written_nil.
  - cbn [float_columns_loop]. unfold dict_get. rewrite Ht. cbn [bind].
    destruct (IH (<[col := t]> acc)) as (m & Hm & Hlook).
    exists m. split; [done|]. intros k.
    by rewrite Hlook, <- (written_step col later (fun _ => Some t) acc k).
Qed.

(** The analyzers are their loops, run from the empty mapping over the
    columns of their kind. *)
Lemma integer_analyzer_loop self :
  _check_if_integer_sizes_can_be_reduced self =
  int_columns_loop (_df self) (columns_of_kind self "int") ∅.
Proof.
  unfold _check_if_integer_sizes_can_be_reduced, columns_of_kind.
  by destruct (_columns_by_type self !! "int"%string) as [[|]|].
Qed.

Lemma string_analyzer_loop self :
  _check_if_strings_could_be_categorical self =
  string_columns_loop (_df self) (_categorical_threshold self)
    (columns_of_kind self "object") ∅.
Proof.
  unfold _check_if_strings_could_be_categorical, columns_of_kind.
  by destruct (_columns_by_type self !! "object"%string) as [[|]|].
Qed.

Lemma float_analyzer_loop self :
  _float_size self <> 64 ->
  _flag_float_column_improvements self =
  float_columns_loop (_float_size self) (columns_of_kind self "float") ∅.
Proof.
  intros Hfs. unfold _flag_float_column_improvements, columns_of_kind.
  rewrite bool_decide_eq_false_2 by done.
  by destruct (_columns_by_type self !! "float"%string) as [[|]|].
Qed.
End Loops.

(** ** What holds of every checker in use *)

Section Invariant.
Context (df : DataFrame) (Hwf : unique_columns df).
Implicit Types (self : DataFrameChecker) (col k : string).

Lemma kind_columns self kind :
  checker_inv df self -> kind ∈ ["float"; "int"; "object"]%string ->
  columns_of_kind self kind = columns (select_dtypes df kind).
Proof.
  intros Hinv Hk. unfold columns_of_kind. rewrite (inv_columns _ _ Hinv).
  by apply separate_dtypes_lookup.
Qed.

Lemma kind_series self kind col :
  checker_inv df self -> kind ∈ ["float"; "int"; "object"]%string ->
  col ∈ columns_of_kind self kind ->
  exists s, getitem df col = Ok s /\ dtype_included kind (dtype_of s) = true.
Proof.
  intros Hinv Hk Hcol. rewrite (kind_columns _ _ Hinv Hk) in Hcol.
  apply select_dtypes_elem in Hcol as (s & Hin & Hd).
  exists s. split; [|done]. apply getitem_NoDup; [apply Hwf|done].
Qed.

Lemma int_kind_series self col :
  checker_inv df self -> col ∈ columns_of_kind self "int" ->
  exists w cells, getitem df col = Ok (IntSeries w cells) /\ (w = W32 \/ w = W64).
Proof.
  intros Hinv Hcol.
  destruct (kind_series self "int" col Hinv) as (s & Hget & Hd);
    [set_solver|done|].
  destruct s as [[]| | | |]; try discriminate; eauto.
Qed.

Lemma float_kind_series self col :
  checker_inv df self -> col ∈ columns_of_kind self "float" ->
  exists w cells, getitem df col = Ok (FloatSeries w cells) /\ (w = F32 \/ w = F64).
Proof.
  intros Hinv Hcol.
  destruct (kind_series self "float" col Hinv) as (s & Hget & Hd);
    [set_solver|done|].
  destruct s as [|[]| | |]; try discriminate; eauto.
Qed.

Lemma object_kind_series self col :
  checker_inv df self -> col ∈ columns_of_kind self "object" ->
  exists cells, getitem df col = Ok (ObjectSeries cells).
Proof.
  intros Hinv Hcol.
  destruct (kind_series self "object" col Hinv) as (s & Hget & Hd);
    [set_solver|done|].
  destruct s; try discriminate; eauto.
Qed.

Lemma integer_analyzer_spec self :
  checker_inv df self ->
  exists m, _check_if_integer_sizes_can_be_reduced self = Ok m /\
            forall k, m !! k = int_entry self k.
Proof.
  intros Hinv. rewrite integer_analyzer_loop, (inv_df _ _ Hinv).
  destruct (int_columns_loop_spec df (columns_of_kind self "int") ∅) as (m & Hm & Hlook).
  { intros col Hcol. destruct (int_kind_series self col Hinv Hcol) as (w & cells & H & _).
    eauto. }
  exists m. split; [done|]. intros k. rewrite Hlook.
  unfold written, int_entry. rewrite (inv_df _ _ Hinv), lookup_empty.
  case_decide; [|done]. by destruct (int_answer df k).
Qed.

Lemma string_analyzer_spec self :
  checker_inv df self ->
  exists m, _check_if_strings_could_be_categorical self = Ok m /\
            forall k, m !! k = string_entry self k.
Proof.
  intros Hinv. rewrite string_analyzer_loop, (inv_df _ _ Hinv).
  destruct (string_columns_loop_spec df (_categorical_threshold self)
              (columns_of_kind self "object") ∅) as (m & Hm & Hlook).
  { intros col Hcol. by apply (object_kind_series self). }
  exists m. split; [done|]. intros k. rewrite Hlook.
  unfold written, string_entry. rewrite (inv_df _ _ Hinv), lookup_empty.
  case_decide; [|done]. by destruct (string_answer df _ k).
Qed.

Lemma float_analyzer_spec self :
  checker_inv df self ->
  exists m, _flag_float_column_improvements self = Ok m /\
            forall k, m !! k = float_entry self k.
Proof.
  intros Hinv. pose proof (inv_float_size _ _ Hinv) as Hfs.
  unfold float_entry, float_answer.
  destruct (decide (_float_size self = 64)) as [E|E].
  - exists ∅. unfold _flag_float_column_improvements.
    rewrite bool_decide_eq_true_2 by done. split; [done|].
    intros k. rewrite lookup_empty. by case_decide.
  - rewrite float_analyzer_loop by done.
    assert (exists t, float_size_to_numpy_type !! _float_size self = Some t) as [t Ht].
    { repeat (apply elem_of_cons in Hfs as [Hfs|Hfs]; [rewrite Hfs in *|]);
        [by eexists..|done|inversion Hfs]. }
    destruct (float_columns_loop_spec (_float_size self) t
                (columns_of_kind self "float") ∅ Ht) as (m & Hm & Hlook).
    exists m. split; [done|]. intros k. rewrite Hlook, Ht.
    unfold written. rewrite lookup_empty. by case_decide.
Qed.
End Invariant.

(** ** The analyze operation *)

Section Analyze.
Context (df : DataFrame) (Hwf : unique_columns df).
Implicit Types (self : DataFrameChecker) (col k : string).

Lemma identify_spec self :
  checker_inv df self ->
  exists f i c,
    _flag_float_column_improvements self = Ok f /\
    _check_if_integer_sizes_can_be_reduced self = Ok i /\
    _check_if_strings_could_be_categorical self = Ok c /\
    (forall k, f !! k = float_entry self k) /\
    (forall k, i !! k = int_entry self k) /\
    (forall k, c !! k = string_entry self k) /\
    identify_possible_improvements self =
    {| after := with_analysed
                  (with_improvements self
                     (update (update (update (_all_possible_improvements self) f) i) c))
                  true;
       printed := progress_lines;
       returned := Ok tt |}.
Proof.
  intros Hinv.
  destruct (float_analyzer_spec df self Hinv) as (f & Hf & Hfk).
  destruct (integer_analyzer_spec df Hwf self Hinv) as (i & Hi & Hik).
  destruct (string_analyzer_spec df Hwf self Hinv) as (c & Hc & Hck).
  exists f, i, c. repeat (split; [done|]).
  unfold identify_possible_improvements. rewrite Hf.
  change (_check_if_integer_sizes_can_be_reduced (with_improvements self _))
    with (_check_if_integer_sizes_can_be_reduced self).
  rewrite Hi.
  change (_check_if_strings_could_be_categorical (with_improvements _ _))
    with (_check_if_strings_could_be_categorical self).
  rewrite Hc. reflexivity.
Qed.

Lemma identify_entries self k :
  checker_inv df self ->
  _all_possible_improvements (after (identify_possible_improvements self)) !! k
  = merged_entry self k.
Proof.
  intros Hinv.
  destruct (identify_spec self Hinv) as (f & i & c & _ & _ & _ & Hf & Hi & Hc & ->).
  cbn [after with_analysed with_improvements _all_possible_improvements].
  unfold update, merged_entry. rewrite !lookup_union, Hf, Hi, Hc.
  destruct (string_entry self k), (int_entry self k), (float_entry self k),
    (_all_possible_improvements self !! k); reflexivity.
Qed.

Lemma string_entry_compatible self k t :
  checker_inv df self -> string_entry self k = Some t ->
  exists s, getitem df k = Ok s /\ compatible s t.
Proof.
  intros Hinv. unfold string_entry, string_answer. rewrite (inv_df _ _ Hinv).
  case_decide; [|discriminate].
  destruct (getitem df k) as [[]|]; try discriminate.
  case_decide; [|discriminate]. intros [= <-]. by eexists.
Qed.

Lemma int_entry_compatible self k t :
  checker_inv df self -> int_entry self k = Some t ->
  exists s, getitem df k = Ok s /\ compatible s t.
Proof.
  intros Hinv. unfold int_entry, int_answer. rewrite (inv_df _ _ Hinv).
  case_decide; [|discriminate].
  destruct (getitem df k) as [[]|]; try discriminate.
  destruct (chosen_width _ _); [|discriminate]. intros [= <-]. by eexists.
Qed.

Lemma float_entry_compatible self k t :
  checker_inv df self -> float_entry self k = Some t ->
  exists s, getitem df k = Ok s /\ compatible s t.
Proof.
  intros Hinv. unfold float_entry.
  case_decide as Hk; [|discriminate].
  destruct (float_kind_series df Hwf self k Hinv Hk) as (w & cells & Hget & _).
  intros Ht. exists (FloatSeries w cells). split; [done|].
  unfold float_answer in Ht. case_decide; [discriminate|].
  pose proof (inv_float_size _ _ Hinv) as Hfs.
  repeat (apply elem_of_cons in Hfs as [Hfs|Hfs]; [rewrite Hfs in *|]);
    [by injection Ht as <-..|done|inversion Hfs].
Qed.

Lemma entries_same_configuration self self' k :
  _df self' = _df self ->
  _columns_by_type self' = _columns_by_type self ->
  _float_size self' = _float_size self ->
  _categorical_threshold self' = _categorical_threshold self ->
  float_entry self' k = float_entry self k /\
  int_entry self' k = int_entry self k /\
  string_entry self' k = string_entry self k.
Proof.
  unfold float_entry, int_entry, string_entry, columns_of_kind.
  by intros -> -> -> ->.
Qed.

Lemma identify_inv self :
  checker_inv df self -> checker_inv df (after (identify_possible_improvements self)).
Proof.
  intros Hinv. split.
  - destruct (identify_spec self Hinv) as (f & i & c & _ & _ & _ & _ & _ & _ & ->).
    apply Hinv.
  - destruct (identify_spec self Hinv) as (f & i & c & _ & _ & _ & _ & _ & _ & ->).
    apply Hinv.
  - destruct (identify_spec self Hinv) as (f & i & c & _ & _ & _ & _ & _ & _ & ->).
    apply Hinv.
  - destruct (identify_spec self Hinv) as (f & i & c & _ & _ & _ & _ & _ & _ & ->).
    discriminate.
  - intros col t. rewrite identify_entries by done.
    destruct (identify_spec self Hinv) as (f & i & c & _ & _ & _ & _ & _ & _ & ->).
    cbn [after].
    destruct (entries_same_configuration self
                (with_analysed
                   (with_improvements self
                      (update (update (update (_all_possible_improvements self) f) i) c))
                   true) col) as (-> & -> & ->); try reflexivity.
    unfold merged_entry.
    destruct (string_entry self col) eqn:Es; [by intros [= <-]; auto|].
    destruct (int_entry self col) eqn:Ei; [by intros [= <-]; auto|].
    destruct (float_entry self col) eqn:Ef; [by intros [= <-]; auto|].
    intros Hold. destruct (inv_entries _ _ Hinv col t Hold) as [H|[H|H]]; congruence.
Qed.

Lemma entries_compatible self col t :
  checker_inv df self ->
  _all_possible_improvements self !! col = Some t ->
  exists s, getitem df col = Ok s /\ compatible s t.
Proof.
  intros Hinv Ht. destruct (inv_entries _ _ Hinv col t Ht) as [H|[H|H]].
  - by apply (float_entry_compatible self).
  - by apply (int_entry_compatible self).
  - by apply (string_entry_compatible self).
Qed.

Lemma cast_after self :
  after (cast_dataframe_to_lower_memory_version self) = self.
Proof.
  unfold cast_dataframe_to_lower_memory_version.
  destruct (negb _); [done|]. by case_bool_decide.
Qed.

Lemma step_inv self c : checker_inv df self -> checker_inv df (step self c).
Proof.
  intros Hinv. destruct c; cbn [step]; [by apply identify_inv|done|].
  by rewrite cast_after.
Qed.

Lemma run_inv self calls : checker_inv df self -> checker_inv df (run self calls).
Proof.
  revert self. induction calls as [|c calls IH]; intros self Hinv; [done|].
  cbn [run foldl]. apply IH. by apply step_inv.
Qed.

Lemma init_inv categorical_threshold float_size fresh :
  __init__ df categorical_threshold float_size = Ok fresh -> checker_inv df fresh.
Proof.
  unfold __init__. case_bool_decide as Hfs; [|discriminate].
  cbn [negb]. intros [= <-]. split; cbn; try done.
Qed.

Lemma reachable_inv self : reachable df self -> checker_inv df self.
Proof.
  intros (ct & fs & fresh & calls & Hinit & ->).
  apply run_inv. by eapply init_inv.
Qed.
End Analyze.

(** ** Casting *)

Section Casting.
Implicit Types (df : DataFrame) (mapping : gmap string dtype) (s : Series) (t : dtype).

Lemma series_astype_dtype s t s' : series_astype s t = Ok s' -> dtype_of s' = t.
Proof.
  unfold series_astype. case_decide as Hd; [by intros [= <-]|].
  destruct s, t; try discriminate; try (by intros [= <-]).
  destruct (float_format w0). by intros [= <-].
Qed.

Lemma series_astype_compatible s t :
  compatible s t -> exists s', series_astype s t = Ok s'.
Proof.
  unfold series_astype. case_decide; [by eexists|].
  destruct s, t; try done; try (by eexists).
  destruct (float_format w0). by eexists.
Qed.

Lemma astype_columns_cast_of df mapping new :
  astype_columns df mapping = Ok new -> Forall2 (cast_of mapping) df new.
Proof.
  revert new. induction df as [|[name s] rest IH]; intros new; cbn [astype_columns].
  - intros [= <-]. constructor.
  - destruct (mapping !! name) as [t|] eqn:Em.
    + destruct (series_astype s t) as [s'|] eqn:Es; [|discriminate]. cbn [bind].
      destruct (astype_columns rest mapping) as [rest'|]; [|discriminate].
      cbn [bind]. intros [= <-]. constructor; [|by apply IH].
      split; [done|]. cbn. by rewrite Em.
    + cbn [bind].
      destruct (astype_columns rest mapping) as [rest'|]; [|discriminate].
      cbn [bind]. intros [= <-]. constructor; [|by apply IH].
      split; [done|]. cbn. by rewrite Em.
Qed.

Lemma astype_columns_succeeds df mapping :
  (forall name s t, (name, s) ∈ df -> mapping !! name = Some t -> compatible s t) ->
  exists new, astype_columns df mapping = Ok new.
Proof.
  induction df as [|[name s] rest IH]; intros Hc; cbn [astype_columns]; [by eexists|].
  destruct IH as [rest' ->]. { intros n s0 t Hin. apply Hc. by right. }
  destruct (mapping !! name) as [t|] eqn:Em; [|by eexists].
  destruct (series_astype_compatible s t) as [s' ->]; [|by eexists].
  apply (Hc name); [left|done].
Qed.

Lemma cast_of_columns mapping df new :
  Forall2 (cast_of mapping) df new -> columns new = columns df.
Proof.
  unfold columns. induction 1 as [|p q l l' [Hname _] _ IH]; [done|].
  cbn. by rewrite Hname, IH.
Qed.

Lemma cast_of_getitem mapping df new col s :
  Forall2 (cast_of mapping) df new -> getitem df col = Ok s ->
  exists s', getitem new col = Ok s' /\
             match mapping !! col with
             | Some target => series_astype s target = Ok s'
             | None => s' = s
             end.
Proof.
  induction 1 as [|[n1 s1] [n2 s2] l l' [Hname Hcast] _ IH]; [discriminate|].
  cbn in Hname, Hcast. subst n2. cbn [getitem].
  case_decide as Hn; [|done].
  intros [= <-]. subst n1. by exists s2.
Qed.

Lemma astype_Ok df mapping new :
  astype df mapping = Ok new -> astype_columns df mapping = Ok new.
Proof. unfold astype. by destruct (filter _ _). Qed.

Lemma astype_succeeds df mapping :
  NoDup (columns df) ->
  (forall col t, mapping !! col = Some t ->
                 exists s, getitem df col = Ok s /\ compatible s t) ->
  exists new, astype df mapping = Ok new.
Proof.
  intros Hnd Hentries. unfold astype.
  destruct (filter _ _) as [|k rest] eqn:E.
  - apply astype_columns_succeeds. intros name s t Hin Hm.
    destruct (Hentries name t Hm) as (s' & Hget & Hc).
    rewrite (getitem_NoDup df name s Hnd Hin) in Hget. by injection Hget as ->.
  - exfalso. assert (Hk : k ∈ filter (fun k => k ∉ columns df) (map_to_list mapping).*1)
      by (rewrite E; left).
    apply list_elem_of_filter in Hk as [Hout Hk].
    apply list_elem_of_fmap in Hk as ([k' t] & -> & Hk).
    apply elem_of_map_to_list in Hk.
    destruct (Hentries k' t Hk) as (s & Hget & _).
    apply Hout. by eapply getitem_columns.
Qed.
End Casting.

(** ** Reachable checkers, and the example frames *)

Section Examples.
Lemma reachable_fresh df categorical_threshold float_size :
  float_size ∈ [16; 32; 64] ->
  reachable df (fresh_checker df categorical_threshold float_size).
Proof.
  intros Hfs. exists categorical_threshold, float_size,
    (fresh_checker df categorical_threshold float_size), [].
  split; [|done]. unfold __init__. by rewrite bool_decide_eq_true_2.
Qed.

Lemma reachable_step df self c : reachable df self -> reachable df (step self c).
Proof.
  intros (ct & fs & fresh & calls & Hinit & ->).
  exists ct, fs, fresh, (calls ++ [c]). split; [done|].
  unfold run. by rewrite foldl_app.
Qed.

Lemma MOCK_DF_wf : frame_wf MOCK_DF.
Proof. apply (bool_decide_unpack _). by vm_compute. Qed.

Lemma MOCK_DF_NO_IMPROVEMENTS_wf : frame_wf MOCK_DF_NO_IMPROVEMENTS.
Proof. apply (bool_decide_unpack _). by vm_compute. Qed.

Lemma NARROW_DF_wf : frame_wf NARROW_DF.
Proof. apply (bool_decide_unpack _). by vm_compute. Qed.

Lemma MISSING_DF_wf : frame_wf MISSING_DF.
Proof. apply (bool_decide_unpack _). by vm_compute. Qed.

Lemma HALF_MISSING_DF_wf : frame_wf HALF_MISSING_DF.
Proof. apply (bool_decide_unpack _). by vm_compute. Qed.

Lemma FLOAT_DF_wf : frame_wf FLOAT_DF.
Proof. apply (bool_decide_unpack _). by vm_compute. Qed.
End Examples.

(** ** Integer columns *)

Section SmallestWidth.
Implicit Types (w v : int_width) (lo hi : Z).

Lemma smallest_fitting_width_Some lo hi w :
  smallest_fitting_width lo hi = Some w <->
  w ∈ candidate_widths /\ contains w lo hi /\
  forall v, v ∈ candidate_widths -> int_bits v < int_bits w -> ~ contains v lo hi.
Proof.
  unfold smallest_fitting_width, candidate_widths. split.
  - repeat case_decide; intros [= <-]; (split; [set_solver|]); (split; [done|]);
      intros v Hv Hlt; repeat (apply elem_of_cons in Hv as [->|Hv]);
      cbn in Hlt; try lia; try done; by inversion Hv.
  - intros (Hw & Hfit & Hsmall).
    repeat (apply elem_of_cons in Hw as [->|Hw]); [| | |by inversion Hw].
    + by rewrite decide_True.
    + rewrite decide_False, decide_True; [done..|].
      apply Hsmall; [set_solver|cbn; lia].
    + rewrite decide_False, decide_False, decide_True; [done..| |].
      * apply Hsmall; [set_solver|cbn; lia].
      * apply Hsmall; [set_solver|cbn; lia].
Qed.

Lemma smallest_fitting_width_None lo hi :
  smallest_fitting_width lo hi = None <->
  forall w, w ∈ candidate_widths -> ~ contains w lo hi.
Proof.
  unfold smallest_fitting_width, candidate_widths. split.
  - repeat case_decide; try discriminate. intros _ w Hw.
    repeat (apply elem_of_cons in Hw as [->|Hw]); try done. by inversion Hw.
  - intros Hnone.
    rewrite !decide_False; [done|apply Hnone; set_solver..].
Qed.
End SmallestWidth.

(** C1.  For a column of the integer partition the integer analyzer writes
    an entry exactly when one of the widths 8, 16, 32 has a signed range
    containing the column's exact minimum and maximum (bounds included); the
    entry is then the smallest such width.  When none of the three fits, and
    when the column has no cell at all, the column gets no entry. *)
Theorem integer_analyzer_recommends_smallest_fit df self col w0 cells :
  unique_columns df -> reachable df self ->
  col ∈ columns_of_kind self "int" ->
  getitem df col = Ok (IntSeries w0 cells) ->
  exists m,
    _check_if_integer_sizes_can_be_reduced self = Ok m /\
    (forall t, m !! col = Some t -> exists w, t = Int w /\ w ∈ candidate_widths) /\
    (forall lo hi, is_minimum lo cells -> is_maximum hi cells ->
       (forall w, m !! col = Some (Int w) <->
                  w ∈ candidate_widths /\ contains w lo hi /\
                  forall v, v ∈ candidate_widths -> int_bits v < int_bits w ->
                            ~ contains v lo hi) /\
       (m !! col = None <-> forall w, w ∈ candidate_widths -> ~ contains w lo hi)) /\
    (cells = [] -> m !! col = None).
Proof.
  intros Hwf Hreach Hcol Hget.
  pose proof (reachable_inv df Hwf self Hreach) as Hinv.
  destruct (integer_analyzer_spec df Hwf self Hinv) as (m & Hm & Hlook).
  exists m. split; [done|].
  assert (Hentry : m !! col = Int <$> chosen_width (list_min cells) (list_max cells)).
  { rewrite Hlook. unfold int_entry, int_answer.
    rewrite decide_True by done. by rewrite (inv_df _ _ Hinv), Hget. }
  rewrite Hentry. split; [|split].
  - intros t Ht. destruct (chosen_width _ _) as [w|] eqn:Ew; [|discriminate].
    injection Ht as <-. exists w. split; [done|].
    unfold chosen_width in Ew. destruct (list_min cells), (list_max cells); try discriminate.
    by apply smallest_fitting_width_Some in Ew as [? _].
  - intros lo hi Hlo%list_min_is_minimum Hhi%list_max_is_maximum.
    rewrite Hlo, Hhi. cbn [chosen_width]. split.
    + intros w. rewrite <- smallest_fitting_width_Some.
      destruct (smallest_fitting_width lo hi); cbn; split; congruence.
    + rewrite <- smallest_fitting_width_None.
      by destruct (smallest_fitting_width lo hi).
  - by intros ->.
Qed.

Lemma integer_analyzer_recommends_smallest_fit_witness :
  exists m,
    _check_if_integer_sizes_can_be_reduced (fresh_checker MOCK_DF 15 16) = Ok m /\
    (m !! "int_smaller_than_int16"%string = Some int16 <->
     W16 ∈ candidate_widths /\ contains W16 (-32768) 32767 /\
     forall v, v ∈ candidate_widths -> int_bits v < int_bits W16 ->
               ~ contains v (-32768) 32767).
Proof.
  destruct (integer_analyzer_recommends_smallest_fit MOCK_DF (fresh_checker MOCK_DF 15 16)
              "int_smaller_than_int16" W64 [-32768; 0; 0; 0; 32767])
    as (m & Hm & _ & Hfit & _).
  - apply (bool_decide_unpack _). vm_compute. reflexivity.
  - exists 15, 16, (fresh_checker MOCK_DF 15 16), []. split; reflexivity.
  - apply (bool_decide_unpack _). vm_compute. reflexivity.
  - vm_compute. reflexivity.
  - exists m. split; [exact Hm|].
    apply (Hfit (-32768) 32767).
    + apply list_min_is_minimum. reflexivity.
    + apply list_max_is_maximum. reflexivity.
Defined.

(** ** Configuration *)

Section Configuration.
Implicit Types (df : DataFrame) (self : DataFrameChecker).

(** No call changes the frame, the cached partition or the configuration. *)
Lemma identify_keeps_configuration self :
  let self' := after (identify_possible_improvements self) in
  _df self' = _df self /\ _columns_by_type self' = _columns_by_type self /\
  _float_size self' = _float_size self /\
  _categorical_threshold self' = _categorical_threshold self.
Proof.
  unfold identify_possible_improvements.
  destruct (_flag_float_column_improvements self); [|done].
  destruct (_check_if_integer_sizes_can_be_reduced _); [|done].
  destruct (_check_if_strings_could_be_categorical _); done.
Qed.

Lemma step_keeps_configuration self c :
  _df (step self c) = _df self /\
  _columns_by_type (step self c) = _columns_by_type self /\
  _float_size (step self c) = _float_size self /\
  _categorical_threshold (step self c) = _categorical_threshold self.
Proof.
  destruct c; cbn [step]; [apply identify_keeps_configuration|done|].
  by rewrite cast_after.
Qed.

Lemma run_keeps_configuration self calls :
  _df (run self calls) = _df self /\
  _columns_by_type (run self calls) = _columns_by_type self /\
  _float_size (run self calls) = _float_size self /\
  _categorical_threshold (run self calls) = _categorical_threshold self.
Proof.
  revert self. induction calls as [|c calls IH]; intros self; [done|].
  change (run self (c :: calls)) with (run (step self c) calls).
  destruct (IH (step self c)) as (-> & -> & -> & ->).
  apply step_keeps_configuration.
Qed.

Lemma init_Ok df categorical_threshold float_size self :
  __init__ df categorical_threshold float_size = Ok self ->
  float_size ∈ [16; 32; 64] /\ self = fresh_checker df categorical_threshold float_size.
Proof.
  unfold __init__. case_bool_decide; [|discriminate]. cbn [negb].
  by intros [= <-].
Qed.

Lemma reachable_configuration df self :
  reachable df self ->
  _df self = df /\ _columns_by_type self = _separate_dtypes df /\
  _float_size self ∈ [16; 32; 64].
Proof.
  intros (ct & fs & fresh & calls & [Hfs ->]%init_Ok & ->).
  by destruct (run_keeps_configuration (fresh_checker df ct fs) calls) as (-> & -> & -> & _).
Qed.
End Configuration.

(** ** Float columns *)

(** C2.  With a float size of 64 the float analyzer returns the empty
    mapping.  With any other float size of a checker in use (16 or 32) it
    maps every column of the float partition, and nothing else, to the float
    dtype of exactly that size.  Its answer is fixed by the partition and the
    float size alone: a checker over any other frame with the same partition
    and float size gets the same answer, so no cell is looked at. *)
Theorem float_analyzer_uniform df self :
  reachable df self ->
  (_float_size self = 64 -> _flag_float_column_improvements self = Ok ∅) /\
  (_float_size self <> 64 ->
   exists w m,
     _float_size self = float_bits w /\ (w = F16 \/ w = F32) /\
     _flag_float_column_improvements self = Ok m /\
     (forall col, col ∈ columns_of_kind self "float" -> m !! col = Some (Float w)) /\
     (forall col, col ∉ columns_of_kind self "float" -> m !! col = None)) /\
  (forall other,
     _columns_by_type other = _columns_by_type self ->
     _float_size other = _float_size self ->
     _flag_float_column_improvements other = _flag_float_column_improvements self).
Proof.
  intros (_ & _ & Hfs)%reachable_configuration. split; [|split].
  - intros E. unfold _flag_float_column_improvements.
    by rewrite bool_decide_eq_true_2.
  - intros Hne. rewrite float_analyzer_loop by done.
    assert (exists w, _float_size self = float_bits w /\ (w = F16 \/ w = F32) /\
                      float_size_to_numpy_type !! _float_size self = Some (Float w))
      as (w & Hw & Hcases & Ht).
    { repeat (apply elem_of_cons in Hfs as [Hfs|Hfs]; [rewrite Hfs in *|]).
      - exists F16. auto.
      - exists F32. auto.
      - done.
      - inversion Hfs. }
    destruct (float_columns_loop_spec (_float_size self) (Float w)
                (columns_of_kind self "float") ∅ Ht) as (m & Hm & Hlook).
    exists w, m. repeat (split; [done|]). split.
    + intros col Hcol. rewrite Hlook. unfold written. by rewrite decide_True.
    + intros col Hcol. rewrite Hlook. unfold written. by rewrite decide_False.
  - intros other Hcols Hsize. unfold _flag_float_column_improvements.
    by rewrite Hcols, Hsize.
Qed.

Lemma float_analyzer_uniform_witness :
  exists w m,
    _float_size (fresh_checker MOCK_DF 15 32) = float_bits w /\ (w = F16 \/ w = F32) /\
    _flag_float_column_improvements (fresh_checker MOCK_DF 15 32) = Ok m /\
    (forall col, col ∈ columns_of_kind (fresh_checker MOCK_DF 15 32) "float" ->
                 m !! col = Some (Float w)) /\
    (forall col, col ∉ columns_of_kind (fresh_checker MOCK_DF 15 32) "float" ->
                 m !! col = None).
Proof.
  destruct (float_analyzer_uniform MOCK_DF (fresh_checker MOCK_DF 15 32)) as (_ & H & _).
  - exists 15, 32, (fresh_checker MOCK_DF 15 32), []. split; reflexivity.
  - apply H. vm_compute. discriminate.
Defined.

(** ** String columns *)

Section StringColumns.
Implicit Types (df : DataFrame) (self : DataFrameChecker) (col : string).

Lemma string_entry_of_column df self col cells :
  unique_columns df -> reachable df self ->
  col ∈ columns_of_kind self "object" ->
  getitem df col = Ok (ObjectSeries cells) ->
  exists m n,
    _check_if_strings_could_be_categorical self = Ok m /\
    series_nunique (ObjectSeries cells) = Ok n /\ 0 <= n /\
    m !! col = if decide (n <= _categorical_threshold self) then Some Category else None.
Proof.
  intros Hwf Hreach Hcol Hget.
  pose proof (reachable_inv df Hwf self Hreach) as Hinv.
  destruct (string_analyzer_spec df Hwf self Hinv) as (m & Hm & Hlook).
  exists m, (Z.of_nat (length (remove_dups (omap id cells)))).
  split; [done|]. split; [done|]. split; [lia|].
  rewrite Hlook. unfold string_entry, string_answer.
  rewrite decide_True by done. by rewrite (inv_df _ _ Hinv), Hget.
Qed.

Lemma string_entries_are_object_columns df self :
  unique_columns df -> reachable df self ->
  exists m,
    _check_if_strings_could_be_categorical self = Ok m /\
    forall col t, m !! col = Some t ->
      t = Category /\ col ∈ columns_of_kind self "object" /\
      exists cells, getitem df col = Ok (ObjectSeries cells) /\
        Z.of_nat (length (remove_dups (omap id cells))) <= _categorical_threshold self.
Proof.
  intros Hwf Hreach.
  pose proof (reachable_inv df Hwf self Hreach) as Hinv.
  destruct (string_analyzer_spec df Hwf self Hinv) as (m & Hm & Hlook).
  exists m. split; [done|]. intros col t. rewrite Hlook.
  unfold string_entry, string_answer. rewrite (inv_df _ _ Hinv).
  case_decide as Hcol; [|discriminate].
  destruct (getitem df col) as [[]|]; try discriminate.
  case_decide; [|discriminate]. intros [= <-]. eauto.
Qed.
End StringColumns.

(** C3.  A column of the string partition is mapped to the categorical
    dtype exactly when its number of distinct values is at most the
    categorical threshold.  The comparison includes the bound: a column with
    exactly threshold many distinct values is mapped, one with threshold + 1
    is not. *)
Theorem string_analyzer_threshold_inclusive df self col s n :
  unique_columns df -> reachable df self ->
  col ∈ columns_of_kind self "object" ->
  getitem df col = Ok s ->
  series_nunique s = Ok n ->
  exists m,
    _check_if_strings_could_be_categorical self = Ok m /\
    (m !! col = Some Category <-> n <= _categorical_threshold self) /\
    (m !! col = None <-> _categorical_threshold self < n) /\
    (n = _categorical_threshold self -> m !! col = Some Category) /\
    (n = _categorical_threshold self + 1 -> m !! col = None).
Proof.
  intros Hwf Hreach Hcol Hget Hn.
  pose proof (reachable_inv df Hwf self Hreach) as Hinv.
  destruct (object_kind_series df Hwf self col Hinv Hcol) as (cells & Hget').
  rewrite Hget in Hget'. injection Hget' as ->.
  destruct (string_entry_of_column df self col cells Hwf Hreach Hcol Hget)
    as (m & n' & Hm & Hn' & _ & Hentry).
  rewrite Hn in Hn'. injection Hn' as <-.
  exists m. split; [done|]. rewrite Hentry.
  case_decide; repeat split; intros; try done; try lia.
Qed.

Lemma string_analyzer_threshold_inclusive_witness :
  exists m,
    _check_if_strings_could_be_categorical (fresh_checker MOCK_DF 5 16) = Ok m /\
    (m !! "varied_strings"%string = Some Category <-> 5 <= 5) /\
    (m !! "varied_strings"%string = None <-> 5 < 5).
Proof.
  destruct (string_analyzer_threshold_inclusive MOCK_DF (fresh_checker MOCK_DF 5 16)
              "varied_strings"
              (ObjectSeries [Some "a"; Some "b"; Some "c"; Some "d"; Some "e"]%string) 5)
    as (m & Hm & Hyes & Hno & _).
  - apply (bool_decide_unpack _). vm_compute. reflexivity.
  - exists 5, 16, (fresh_checker MOCK_DF 5 16), []. split; reflexivity.
  - apply (bool_decide_unpack _). vm_compute. reflexivity.
  - vm_compute. reflexivity.
  - vm_compute. reflexivity.
  - exists m. split; [exact Hm|]. split; [exact Hyes|exact Hno].
Defined.

(** ** Construction *)

(** C5.  [__init__] raises the configuration error, a [ValueError], for
    every float size outside 16, 32, 64 (99 for one) and then yields no
    checker; for 16, 32 and 64 it yields a checker that has not been
    analysed and holds no recommendation. *)
Theorem init_validates_float_size df categorical_threshold float_size :
  (float_size ∉ [16; 32; 64] ->
   __init__ df categorical_threshold float_size = Raise InvalidConfiguration /\
   class_of InvalidConfiguration = ValueError_class /\
   forall self, __init__ df categorical_threshold float_size <> Ok self) /\
  (float_size ∈ [16; 32; 64] ->
   exists self,
     __init__ df categorical_threshold float_size = Ok self /\
     _float_size self = float_size /\
     _dataframe_has_been_analysed self = false /\
     get_possible_dtypes self = ∅) /\
  __init__ df categorical_threshold 99 = Raise InvalidConfiguration.
Proof.
  unfold __init__. split; [|split].
  - intros Hout. rewrite bool_decide_eq_false_2 by done. cbn [negb].
    split; [done|]. split; [done|]. by intros self.
  - intros Hin. rewrite bool_decide_eq_true_2 by done. cbn [negb].
    by eexists.
  - reflexivity.
Qed.

Lemma init_validates_float_size_witness :
  __init__ MOCK_DF 15 99 = Raise InvalidConfiguration /\
  exists self, __init__ MOCK_DF 15 32 = Ok self /\ _float_size self = 32.
Proof.
  destruct (init_validates_float_size MOCK_DF 15 99) as (Hbad & _ & _).
  destruct (init_validates_float_size MOCK_DF 15 32) as (_ & Hgood & _).
  split.
  - apply Hbad. apply (bool_decide_unpack _). vm_compute. reflexivity.
  - destruct Hgood as (self & Hself & Hsize & _).
    + apply (bool_decide_unpack _). vm_compute. reflexivity.
    + exists self. split; [exact Hself|exact Hsize].
Defined.

(** ** Materialization *)

Section Materialization.
Context (df : DataFrame) (Hwf : unique_columns df).
Implicit Types (self : DataFrameChecker) (col : string).

(** The flag is raised by the first [identify_possible_improvements] and
    stays up. *)
Lemma analysed_after_run self calls :
  checker_inv df self ->
  _dataframe_has_been_analysed (run self calls) =
  _dataframe_has_been_analysed self || bool_decide (Identify ∈ calls).
Proof.
  revert self. induction calls as [|c calls IH]; intros self Hinv.
  - cbn. rewrite bool_decide_eq_false_2; [by rewrite orb_false_r|]. by inversion 1.
  - change (run self (c :: calls)) with (run (step self c) calls).
    rewrite IH by by apply step_inv. destruct c; cbn [step].
    + destruct (identify_spec df Hwf self Hinv) as (f & i & c & _ & _ & _ & _ & _ & _ & ->).
      cbn. rewrite (bool_decide_eq_true_2 (Identify ∈ Identify :: calls)) by left.
      by rewrite orb_true_r.
    + f_equal. apply bool_decide_ext. rewrite elem_of_cons.
      split; [by right|]. by intros [?|?].
    + rewrite cast_after. f_equal. apply bool_decide_ext. rewrite elem_of_cons.
      split; [by right|]. by intros [?|?].
Qed.

Lemma cast_succeeds self :
  checker_inv df self ->
  _dataframe_has_been_analysed self = true ->
  _all_possible_improvements self <> ∅ ->
  exists new, returned (cast_dataframe_to_lower_memory_version self) = Ok new.
Proof.
  intros Hinv Hflag Hsome. unfold cast_dataframe_to_lower_memory_version.
  rewrite Hflag. cbn [negb]. rewrite bool_decide_eq_false_2 by done.
  cbn [returned]. rewrite (inv_df _ _ Hinv).
  apply astype_succeeds; [apply Hwf|]. intros col t. by apply entries_compatible.
Qed.

Lemma cast_Ok self new :
  returned (cast_dataframe_to_lower_memory_version self) = Ok new ->
  _dataframe_has_been_analysed self = true /\
  _all_possible_improvements self <> ∅ /\
  astype (_df self) (_all_possible_improvements self) = Ok new.
Proof.
  unfold cast_dataframe_to_lower_memory_version.
  destruct (_dataframe_has_been_analysed self); cbn [negb]; [|discriminate].
  case_bool_decide; [discriminate|]. by cbn.
Qed.
End Materialization.

(** C4.  Take a checker built by [__init__] and used through any sequence
    of calls.  If [identify_possible_improvements] is not among the calls,
    materialization raises the not-analysed error.  If it is and the
    recommendation mapping is empty, materialization raises the
    no-improvements error.  If it is and the mapping is not empty,
    materialization returns a frame and raises neither.  The not-analysed test
    comes first in every state, whatever the mapping holds. *)
Theorem materialization_preconditions df categorical_threshold float_size fresh calls :
  unique_columns df ->
  __init__ df categorical_threshold float_size = Ok fresh ->
  (Identify ∉ calls ->
   returned (cast_dataframe_to_lower_memory_version (run fresh calls))
   = Raise NotAnalyzedError) /\
  (Identify ∈ calls -> get_possible_dtypes (run fresh calls) = ∅ ->
   returned (cast_dataframe_to_lower_memory_version (run fresh calls))
   = Raise NoImprovementsFoundError) /\
  (Identify ∈ calls -> get_possible_dtypes (run fresh calls) <> ∅ ->
   exists new,
     returned (cast_dataframe_to_lower_memory_version (run fresh calls)) = Ok new) /\
  (forall any,
     _dataframe_has_been_analysed any = false ->
     returned (cast_dataframe_to_lower_memory_version any) = Raise NotAnalyzedError).
Proof.
  intros Hwf Hinit.
  pose proof (init_inv df _ _ _ Hinit) as Hfresh.
  pose proof (run_inv df Hwf fresh calls Hfresh) as Hinv.
  pose proof (analysed_after_run df Hwf fresh calls Hfresh) as Hflag.
  apply init_Ok in Hinit as [_ ->]. cbn [fresh_checker _dataframe_has_been_analysed orb] in Hflag.
  assert (Hfirst : forall any, _dataframe_has_been_analysed any = false ->
            returned (cast_dataframe_to_lower_memory_version any) = Raise NotAnalyzedError).
  { intros any Hany. unfold cast_dataframe_to_lower_memory_version. by rewrite Hany. }
  split; [|split; [|split]]; [| | |done].
  - intros Hnever. apply Hfirst. rewrite Hflag. by apply bool_decide_eq_false_2.
  - intros Hran Hempty. unfold cast_dataframe_to_lower_memory_version.
    rewrite Hflag, bool_decide_eq_true_2 by done. cbn [negb].
    unfold get_possible_dtypes in Hempty. by rewrite bool_decide_eq_true_2.
  - intros Hran Hsome. apply (cast_succeeds df Hwf); [done| |done].
    rewrite Hflag. by apply bool_decide_eq_true_2.
Qed.

Lemma materialization_preconditions_witness :
  returned (cast_dataframe_to_lower_memory_version (run (fresh_checker MOCK_DF 15 16) []))
  = Raise NotAnalyzedError /\
  returned (cast_dataframe_to_lower_memory_version
              (run (fresh_checker MOCK_DF_NO_IMPROVEMENTS 15 16) [Identify]))
  = Raise NoImprovementsFoundError /\
  exists new,
    returned (cast_dataframe_to_lower_memory_version
                (run (fresh_checker MOCK_DF 15 16) [Identify])) = Ok new.
Proof.
  split; [|split].
  - apply (materialization_preconditions MOCK_DF 15 16).
    + apply (bool_decide_unpack _). vm_compute. reflexivity.
    + reflexivity.
    + apply (bool_decide_unpack _). vm_compute. reflexivity.
  - apply (materialization_preconditions MOCK_DF_NO_IMPROVEMENTS 15 16).
    + apply (bool_decide_unpack _). vm_compute. reflexivity.
    + reflexivity.
    + apply (bool_decide_unpack _). vm_compute. reflexivity.
    + vm_compute. reflexivity.
  - apply (materialization_preconditions MOCK_DF 15 16).
    + apply (bool_decide_unpack _). vm_compute. reflexivity.
    + reflexivity.
    + apply (bool_decide_unpack _). vm_compute. reflexivity.
    + apply (bool_decide_unpack _). vm_compute. reflexivity.
Defined.

(** ** Casts that keep every cell *)

Section Lossless.
Context (df : DataFrame) (Hwf : unique_columns df).
Implicit Types (self : DataFrameChecker) (col : string) (cells : list Z).

Lemma wrap_in_range w v :
  w ∈ candidate_widths ->
  (signed_range w).1 <= v <= (signed_range w).2 ->
  wrap (int_bits w) v = v.
Proof.
  unfold wrap, candidate_widths. intros Hw Hv.
  repeat (apply elem_of_cons in Hw as [->|Hw]); [| | |inversion Hw];
    cbn in *; rewrite Z.mod_small; lia.
Qed.

Lemma fmap_fixed (f : Z -> Z) cells :
  (forall v, v ∈ cells -> f v = v) -> f <$> cells = cells.
Proof.
  induction cells as [|x rest IH]; intros Hf; [done|].
  cbn. rewrite Hf by left. f_equal. apply IH. intros v Hv. apply Hf. by right.
Qed.

(** The width the integer analyzer chooses holds every cell of the column. *)
Lemma chosen_width_keeps_cells cells w :
  chosen_width (list_min cells) (list_max cells) = Some w ->
  wrap (int_bits w) <$> cells = cells.
Proof.
  unfold chosen_width.
  destruct (list_min cells) as [lo|] eqn:Elo; [|discriminate].
  destruct (list_max cells) as [hi|] eqn:Ehi; [|discriminate].
  intros (Hw & [Hlo Hhi] & _)%smallest_fitting_width_Some.
  apply list_min_is_minimum in Elo as [_ Elo].
  apply list_max_is_maximum in Ehi as [_ Ehi].
  apply fmap_fixed. intros v Hv. apply wrap_in_range; [done|].
  specialize (Elo v Hv). specialize (Ehi v Hv). lia.
Qed.

Lemma float_entry_is_float self col t :
  checker_inv df self -> float_entry self col = Some t -> exists w, t = Float w.
Proof.
  intros Hinv. unfold float_entry, float_answer.
  case_decide; [|discriminate]. case_decide; [discriminate|].
  pose proof (inv_float_size _ _ Hinv) as Hfs.
  repeat (apply elem_of_cons in Hfs as [Hfs|Hfs]; [rewrite Hfs in *|]);
    [intros [= <-]; by eexists..|done|inversion Hfs].
Qed.

Lemma string_entry_is_category self col t :
  string_entry self col = Some t -> t = Category.
Proof.
  unfold string_entry, string_answer. case_decide; [|discriminate].
  destruct (getitem _ col) as [[]|]; try discriminate.
  case_decide; [|discriminate]. by intros [= <-].
Qed.

Lemma recommended_int_cast self col w0 cells t :
  checker_inv df self ->
  getitem df col = Ok (IntSeries w0 cells) ->
  _all_possible_improvements self !! col = Some t ->
  exists w, t = Int w /\ series_astype (IntSeries w0 cells) t = Ok (IntSeries w cells).
Proof.
  intros Hinv Hget Ht.
  destruct (inv_entries _ _ Hinv col t Ht) as [Hf|[Hi|Hs]].
  - destruct (float_entry_compatible df Hwf self col t Hinv Hf) as (s & Hget' & Hc).
    destruct (float_entry_is_float self col t Hinv Hf) as [w ->].
    rewrite Hget in Hget'. by injection Hget' as <-.
  - unfold int_entry, int_answer in Hi. rewrite (inv_df _ _ Hinv), Hget in Hi.
    case_decide; [|discriminate].
    destruct (chosen_width (list_min cells) (list_max cells)) as [w|] eqn:Ew;
      [|discriminate].
    injection Hi as <-. exists w. split; [done|].
    unfold series_astype. cbn [dtype_of]. case_decide as Hsame.
    + by injection Hsame as ->.
    + by rewrite (chosen_width_keeps_cells cells w Ew).
  - apply string_entry_is_category in Hs as ->.
    destruct (entries_compatible df Hwf self col Category Hinv Ht) as (s & Hget' & Hc).
    rewrite Hget in Hget'. by injection Hget' as <-.
Qed.

Lemma recommended_object_cast self col (cells : list (option string)) t :
  checker_inv df self ->
  getitem df col = Ok (ObjectSeries cells) ->
  _all_possible_improvements self !! col = Some t ->
  t = Category /\ series_astype (ObjectSeries cells) t = Ok (CategorySeries cells).
Proof.
  intros Hinv Hget Ht.
  destruct (entries_compatible df Hwf self col t Hinv Ht) as (s & Hget' & Hc).
  rewrite Hget in Hget'. injection Hget' as <-. by destruct t.
Qed.
End Lossless.

(** C6.  When materialization returns a frame, that frame has the columns
    of the original in the same order; a column with a recommendation is the
    original column cast to the recommended dtype, a column without one is
    the original column, cells and dtype unchanged; boolean columns never
    have a recommendation and so pass through.  A recommended integer column
    comes out with the recommended width and the cells it had, a recommended
    string column as a categorical column with the cells it had.  The call
    leaves the checker as it was, and no call of any kind changes the frame
    the checker holds. *)
Theorem materialization_casts_recommended_only df self new :
  unique_columns df -> reachable df self ->
  returned (cast_dataframe_to_lower_memory_version self) = Ok new ->
  columns new = columns df /\
  (forall col s, getitem df col = Ok s ->
     match get_possible_dtypes self !! col with
     | Some target =>
         exists s', getitem new col = Ok s' /\
                    series_astype s target = Ok s' /\ dtype_of s' = target
     | None => getitem new col = Ok s
     end) /\
  (forall col cells, getitem df col = Ok (BoolSeries cells) ->
     get_possible_dtypes self !! col = None /\
     getitem new col = Ok (BoolSeries cells)) /\
  (forall col w0 cells t, getitem df col = Ok (IntSeries w0 cells) ->
     get_possible_dtypes self !! col = Some t ->
     exists w, t = Int w /\ getitem new col = Ok (IntSeries w cells)) /\
  (forall col cells t, getitem df col = Ok (ObjectSeries cells) ->
     get_possible_dtypes self !! col = Some t ->
     t = Category /\ getitem new col = Ok (CategorySeries cells)) /\
  after (cast_dataframe_to_lower_memory_version self) = self /\
  _df self = df /\
  (forall c, _df (step self c) = df).
Proof.
  intros Hwf Hreach Hnew.
  pose proof (reachable_inv df Hwf self Hreach) as Hinv.
  apply cast_Ok in Hnew as (_ & _ & Hnew). rewrite (inv_df _ _ Hinv) in Hnew.
  apply astype_Ok, astype_columns_cast_of in Hnew.
  assert (Hcols : forall col s, getitem df col = Ok s ->
     match get_possible_dtypes self !! col with
     | Some target =>
         exists s', getitem new col = Ok s' /\
                    series_astype s target = Ok s' /\ dtype_of s' = target
     | None => getitem new col = Ok s
     end).
  { intros col s Hget.
    destruct (cast_of_getitem _ _ _ _ _ Hnew Hget) as (s' & Hget' & Hcast).
    unfold get_possible_dtypes.
    destruct (_all_possible_improvements self !! col) as [target|].
    - exists s'. repeat split; [done..|]. by eapply series_astype_dtype.
    - by subst s'. }
  split; [by eapply cast_of_columns|]. split; [done|].
  split; [|split; [|split; [|split; [|split]]]].
  - intros col cells Hget.
    assert (Hnone : get_possible_dtypes self !! col = None).
    { unfold get_possible_dtypes.
      destruct (_all_possible_improvements self !! col) as [t|] eqn:Et; [|done].
      destruct (entries_compatible df Hwf self col t Hinv Et) as (s & Hget' & Hc).
      rewrite Hget in Hget'. by injection Hget' as <-. }
    split; [done|]. specialize (Hcols col _ Hget). by rewrite Hnone in Hcols.
  - intros col w0 cells t Hget Ht.
    destruct (recommended_int_cast df Hwf self col w0 cells t Hinv Hget Ht)
      as (w & -> & Hcast).
    exists w. split; [done|]. specialize (Hcols col _ Hget). rewrite Ht in Hcols.
    destruct Hcols as (s' & Hget' & Hcast' & _). congruence.
  - intros col cells t Hget Ht.
    destruct (recommended_object_cast df Hwf self col cells t Hinv Hget Ht)
      as (-> & Hcast).
    split; [done|]. specialize (Hcols col _ Hget). rewrite Ht in Hcols.
    destruct Hcols as (s' & Hget' & Hcast' & _). congruence.
  - apply cast_after.
  - apply Hinv.
  - intros c. destruct (step_keeps_configuration self c) as (-> & _). apply Hinv.
Qed.

Lemma materialization_casts_recommended_only_witness :
  returned (cast_dataframe_to_lower_memory_version
              (run (fresh_checker MOCK_DF 15 16) [Identify])) = Ok LOWER_MEMORY_DF /\
  columns LOWER_MEMORY_DF = columns MOCK_DF /\
  getitem LOWER_MEMORY_DF "ineligible_column" = Ok (BoolSeries [true; false; true; false; true]).
Proof.
  assert (Hnew : returned (cast_dataframe_to_lower_memory_version
                             (run (fresh_checker MOCK_DF 15 16) [Identify]))
                 = Ok LOWER_MEMORY_DF) by (vm_compute; reflexivity).
  destruct (materialization_casts_recommended_only MOCK_DF
              (run (fresh_checker MOCK_DF 15 16) [Identify]) LOWER_MEMORY_DF)
    as (Hcols & _ & Hbool & _ & _ & _).
  - apply (bool_decide_unpack _). vm_compute. reflexivity.
  - exists 15, 16, (fresh_checker MOCK_DF 15 16), [Identify]. split; reflexivity.
  - exact Hnew.
  - split; [exact Hnew|]. split; [exact Hcols|].
    apply (Hbool "ineligible_column"%string). vm_compute. reflexivity.
Defined.

(** ** The analyze operation, twice *)

Section Merge.
Context (df : DataFrame) (Hwf : unique_columns df).
Implicit Types (self : DataFrameChecker) (k : string).

(** A column belongs to at most one of the three partitions. *)
Lemma partitions_disjoint self k :
  checker_inv df self ->
  (k ∈ columns_of_kind self "float" -> k ∈ columns_of_kind self "int" -> False) /\
  (k ∈ columns_of_kind self "float" -> k ∈ columns_of_kind self "object" -> False) /\
  (k ∈ columns_of_kind self "int" -> k ∈ columns_of_kind self "object" -> False).
Proof.
  intros Hinv. repeat split.
  - intros (? & ? & Hf & _)%(float_kind_series df Hwf self k Hinv)
           (? & ? & Hi & _)%(int_kind_series df Hwf self k Hinv). congruence.
  - intros (? & ? & Hf & _)%(float_kind_series df Hwf self k Hinv)
           (? & Ho)%(object_kind_series df Hwf self k Hinv). congruence.
  - intros (? & ? & Hi & _)%(int_kind_series df Hwf self k Hinv)
           (? & Ho)%(object_kind_series df Hwf self k Hinv). congruence.
Qed.

Lemma entry_in_partition self k :
  (is_Some (float_entry self k) -> k ∈ columns_of_kind self "float") /\
  (is_Some (int_entry self k) -> k ∈ columns_of_kind self "int") /\
  (is_Some (string_entry self k) -> k ∈ columns_of_kind self "object").
Proof.
  unfold float_entry, int_entry, string_entry.
  repeat split; case_decide; try done; by intros [? [=]].
Qed.

(** Merging the analyzers' outputs a second time changes nothing. *)
Lemma update_thrice_again (old f i c : gmap string dtype) :
  update (update (update (update (update (update old f) i) c) f) i) c
  = update (update (update old f) i) c.
Proof.
  unfold update. apply map_eq. intros k. rewrite !lookup_union.
  by destruct (c !! k), (i !! k), (f !! k), (old !! k).
Qed.
End Merge.

(** What one run of the analyze operation does, in terms of the three
    analyzers' outputs. *)
Lemma analyze_outcome df self :
  unique_columns df -> reachable df self ->
  exists f i c,
    _flag_float_column_improvements self = Ok f /\
    _check_if_integer_sizes_can_be_reduced self = Ok i /\
    _check_if_strings_could_be_categorical self = Ok c /\
    returned (identify_possible_improvements self) = Ok tt /\
    printed (identify_possible_improvements self) =
      ["Checking float columns if reduced precision requested";
       "Checking integer columns to see whether a smaller size can be used";
       "Checking string columns to see if they be assigned to repeated categories";
       "Done"]%string /\
    get_possible_dtypes (after (identify_possible_improvements self)) =
      update (update (update (get_possible_dtypes self) f) i) c /\
    f ##ₘ i /\ f ##ₘ c /\ i ##ₘ c /\
    _dataframe_has_been_analysed (after (identify_possible_improvements self)) = true /\
    after (identify_possible_improvements (after (identify_possible_improvements self)))
    = after (identify_possible_improvements self).
Proof.
  intros Hwf Hreach.
  pose proof (reachable_inv df Hwf self Hreach) as Hinv.
  pose proof (identify_inv df Hwf self Hinv) as Hinv'.
  destruct (identify_spec df Hwf self Hinv)
    as (f & i & c & Hf & Hi & Hc & Hfk & Hik & Hck & Hrun).
  destruct (identify_spec df Hwf _ Hinv')
    as (f' & i' & c' & Hf' & Hi' & Hc' & _ & _ & _ & Hrun').
  exists f, i, c. repeat (split; [done|]).
  rewrite Hrun' at 1. rewrite Hrun in Hf', Hi', Hc' |- *.
  cbn [after returned printed] in *.
  change (_flag_float_column_improvements (with_analysed (with_improvements self _) _))
    with (_flag_float_column_improvements self) in Hf'.
  change (_check_if_integer_sizes_can_be_reduced (with_analysed (with_improvements self _) _))
    with (_check_if_integer_sizes_can_be_reduced self) in Hi'.
  change (_check_if_strings_could_be_categorical (with_analysed (with_improvements self _) _))
    with (_check_if_strings_could_be_categorical self) in Hc'.
  rewrite Hf in Hf'. rewrite Hi in Hi'. rewrite Hc in Hc'.
  injection Hf' as <-. injection Hi' as <-. injection Hc' as <-.
  repeat (split; [done|]).
  assert (Hdisj : forall (a b : gmap string dtype) (ka kb : string),
            (forall k, is_Some (a !! k) -> k ∈ columns_of_kind self ka) ->
            (forall k, is_Some (b !! k) -> k ∈ columns_of_kind self kb) ->
            (forall k, k ∈ columns_of_kind self ka -> k ∈ columns_of_kind self kb -> False) ->
            a ##ₘ b).
  { intros a b ka kb Ha Hb Hab. apply map_disjoint_spec. intros k x y Hx Hy.
    apply (Hab k); [apply Ha|apply Hb]; by eexists. }
  split; [|split; [|split; [|split]]].
  - apply (Hdisj f i "float" "int")%string.
    + intros k. rewrite Hfk. apply entry_in_partition.
    + intros k. rewrite Hik. apply entry_in_partition.
    + intros k. by apply (partitions_disjoint df Hwf self k).
  - apply (Hdisj f c "float" "object")%string.
    + intros k. rewrite Hfk. apply entry_in_partition.
    + intros k. rewrite Hck. apply entry_in_partition.
    + intros k. by apply (partitions_disjoint df Hwf self k).
  - apply (Hdisj i c "int" "object")%string.
    + intros k. rewrite Hik. apply entry_in_partition.
    + intros k. rewrite Hck. apply entry_in_partition.
    + intros k. by apply (partitions_disjoint df Hwf self k).
  - reflexivity.
  - unfold with_analysed, with_improvements.
    cbn [_all_possible_improvements _dataframe_has_been_analysed _df
         _categorical_threshold _columns_by_type _float_size].
    f_equal. apply update_thrice_again.
Qed.

(** C7.  On a checker in use, the analyze operation runs to the end: it
    prints its four progress lines in the order float, integer, string, done;
    the mapping it leaves is the old mapping updated with the float
    analyzer's output, then the integer analyzer's, then the string
    analyzer's.  Entry by entry: every entry of each of the three outputs is
    in the mapping afterwards, and a column none of them mentions keeps the
    entry it had, if any.  No two of the three outputs have a column in
    common; the analysed flag is set.  Running it a second time leaves the
    checker as the first run left it. *)
Theorem analyze_merges_in_order df self :
  unique_columns df -> reachable df self ->
  exists f i c,
    _flag_float_column_improvements self = Ok f /\
    _check_if_integer_sizes_can_be_reduced self = Ok i /\
    _check_if_strings_could_be_categorical self = Ok c /\
    returned (identify_possible_improvements self) = Ok tt /\
    printed (identify_possible_improvements self) =
      ["Checking float columns if reduced precision requested";
       "Checking integer columns to see whether a smaller size can be used";
       "Checking string columns to see if they be assigned to repeated categories";
       "Done"]%string /\
    get_possible_dtypes (after (identify_possible_improvements self)) =
      update (update (update (get_possible_dtypes self) f) i) c /\
    (forall k t,
       f !! k = Some t \/ i !! k = Some t \/ c !! k = Some t ->
       get_possible_dtypes (after (identify_possible_improvements self)) !! k = Some t) /\
    (forall k,
       f !! k = None -> i !! k = None -> c !! k = None ->
       get_possible_dtypes (after (identify_possible_improvements self)) !! k
       = get_possible_dtypes self !! k) /\
    f ##ₘ i /\ f ##ₘ c /\ i ##ₘ c /\
    _dataframe_has_been_analysed (after (identify_possible_improvements self)) = true /\
    after (identify_possible_improvements (after (identify_possible_improvements self)))
    = after (identify_possible_improvements self).
Proof.
  intros Hwf Hreach.
  destruct (analyze_outcome df self Hwf Hreach)
    as (f & i & c & Hf & Hi & Hc & Hret & Hout & Hmerged & Hfi & Hfc & Hic & Hflag & Htwice).
  exists f, i, c. repeat (split; [done|]). split; [|split]; [| |done].
  - intros k t Hentry. rewrite Hmerged. unfold update.
    destruct Hentry as [Hk|[Hk|Hk]].
    + rewrite lookup_union_r by apply (map_disjoint_Some_l f c k t Hfc Hk).
      rewrite lookup_union_r by apply (map_disjoint_Some_l f i k t Hfi Hk).
      by apply lookup_union_Some_l.
    + rewrite lookup_union_r by apply (map_disjoint_Some_l i c k t Hic Hk).
      by apply lookup_union_Some_l.
    + by apply lookup_union_Some_l.
  - intros k Hfk Hik Hck. rewrite Hmerged. unfold update.
    by rewrite !lookup_union_r.
Qed.

Lemma analyze_merges_in_order_witness :
  get_possible_dtypes (after (identify_possible_improvements (fresh_checker MOCK_DF 15 16)))
    !! "floats"%string = Some float16 /\
  get_possible_dtypes (after (identify_possible_improvements (fresh_checker MOCK_DF 15 16)))
    !! "int_smaller_than_int16"%string = Some int16 /\
  get_possible_dtypes (after (identify_possible_improvements (fresh_checker MOCK_DF 15 16)))
    !! "category_strings"%string = Some Category /\
  get_possible_dtypes (after (identify_possible_improvements (fresh_checker MOCK_DF 15 16)))
    !! "ineligible_column"%string = None.
Proof.
  destruct (analyze_merges_in_order MOCK_DF (fresh_checker MOCK_DF 15 16))
    as (f & i & c & Hf & Hi & Hc & _ & _ & _ & Hin & Hout & _).
  - apply (bool_decide_unpack _). vm_compute. reflexivity.
  - exists 15, 16, (fresh_checker MOCK_DF 15 16), []. split; reflexivity.
  - assert (Ef : _flag_float_column_improvements (fresh_checker MOCK_DF 15 16)
                 = Ok {[ "floats"%string := float16 ]}) by (vm_compute; reflexivity).
    assert (Ei : _check_if_integer_sizes_can_be_reduced (fresh_checker MOCK_DF 15 16)
                 = Ok {[ "int_smaller_than_int8"%string := int8;
                         "int_smaller_than_int16"%string := int16;
                         "int_smaller_than_int32"%string := int32 ]})
      by (vm_compute; reflexivity).
    assert (Ec : _check_if_strings_could_be_categorical (fresh_checker MOCK_DF 15 16)
                 = Ok {[ "category_strings"%string := Category;
                         "varied_strings"%string := Category ]})
      by (vm_compute; reflexivity).
    rewrite Hf in Ef. rewrite Hi in Ei. rewrite Hc in Ec.
    injection Ef as ->. injection Ei as ->. injection Ec as ->.
    split; [|split; [|split]].
    + apply Hin. left. vm_compute. reflexivity.
    + apply Hin. right. left. vm_compute. reflexivity.
    + apply Hin. right. right. vm_compute. reflexivity.
    + rewrite Hout; vm_compute; reflexivity.
Defined.

(** ** Entries of the integer analyzer and the width of the column *)

(** C8, as the code has it.  Every entry of the integer analyzer's output
    belongs to a column of the integer partition and names the smallest of
    the widths 8, 16, 32 that contains the column's minimum and maximum.  The
    width is below 64, hence strictly below the column's own width when that
    is 64; the column's own width is not consulted. *)
Theorem integer_entries_narrower_than_64 df self m col t :
  unique_columns df -> reachable df self ->
  _check_if_integer_sizes_can_be_reduced self = Ok m ->
  m !! col = Some t ->
  exists w w0 cells lo hi,
    t = Int w /\ col ∈ columns_of_kind self "int" /\
    getitem df col = Ok (IntSeries w0 cells) /\
    is_minimum lo cells /\ is_maximum hi cells /\
    smallest_fitting_width lo hi = Some w /\
    int_bits w < 64 /\
    (w0 = W64 -> int_bits w < int_bits w0).
Proof.
  intros Hwf Hreach Hm Ht.
  pose proof (reachable_inv df Hwf self Hreach) as Hinv.
  destruct (integer_analyzer_spec df Hwf self Hinv) as (m' & Hm' & Hlook).
  rewrite Hm in Hm'. injection Hm' as <-.
  rewrite Hlook in Ht. unfold int_entry in Ht.
  case_decide as Hcol; [|discriminate].
  destruct (int_kind_series df Hwf self col Hinv Hcol) as (w0 & cells & Hget & _).
  unfold int_answer in Ht. rewrite (inv_df _ _ Hinv), Hget in Ht.
  unfold chosen_width in Ht.
  destruct (list_min cells) as [lo|] eqn:Elo; [|discriminate].
  destruct (list_max cells) as [hi|] eqn:Ehi; [|discriminate].
  destruct (smallest_fitting_width lo hi) as [w|] eqn:Ew; [|discriminate].
  injection Ht as <-.
  exists w, w0, cells, lo, hi.
  apply list_min_is_minimum in Elo. apply list_max_is_maximum in Ehi.
  repeat (split; [done|]).
  assert (int_bits w < 64).
  { apply smallest_fitting_width_Some in Ew as (Hw & _).
    unfold candidate_widths in Hw.
    repeat (apply elem_of_cons in Hw as [->|Hw]); cbn; try lia. inversion Hw. }
  split; [done|]. by intros ->.
Qed.

Lemma integer_entries_narrower_than_64_witness :
  exists w w0 cells lo hi,
    int8 = Int w /\
    "int_smaller_than_int8"%string ∈ columns_of_kind (fresh_checker MOCK_DF 15 16) "int" /\
    getitem MOCK_DF "int_smaller_than_int8" = Ok (IntSeries w0 cells) /\
    is_minimum lo cells /\ is_maximum hi cells /\
    smallest_fitting_width lo hi = Some w /\
    int_bits w < 64 /\
    (w0 = W64 -> int_bits w < int_bits w0).
Proof.
  apply (integer_entries_narrower_than_64 MOCK_DF (fresh_checker MOCK_DF 15 16)
           {[ "int_smaller_than_int8"%string := int8;
              "int_smaller_than_int16"%string := int16;
              "int_smaller_than_int32"%string := int32 ]}).
  - apply (bool_decide_unpack _). vm_compute. reflexivity.
  - exists 15, 16, (fresh_checker MOCK_DF 15 16), []. split; reflexivity.
  - vm_compute. reflexivity.
  - vm_compute. reflexivity.
Defined.

(** C8 as stated fails: a 32-bit column of the integer partition whose
    cells need 32 bits is given the entry int32, its own width. *)
Lemma integer_entry_not_below_own_width :
  frame_wf NARROW_DF /\
  __init__ NARROW_DF 15 16 = Ok (fresh_checker NARROW_DF 15 16) /\
  getitem NARROW_DF "a" = Ok (IntSeries W32 [100000; -7]) /\
  smallest_fitting_width (-7) 100000 = Some W32 /\
  (exists m, _check_if_integer_sizes_can_be_reduced (fresh_checker NARROW_DF 15 16) = Ok m /\
             m !! "a"%string = Some (Int W32)) /\
  ~ int_bits W32 < int_bits W32.
Proof.
  split; [apply NARROW_DF_wf|].
  split; [reflexivity|]. split; [reflexivity|]. split; [reflexivity|].
  split; [|lia].
  exists {[ "a"%string := int32 ]}. split; vm_compute; reflexivity.
Qed.

(** ** Errors *)



(** ** The categorical threshold *)

Section Threshold.
Implicit Types (cells : list (option string)).

Lemma all_missing_nunique cells :
  (forall cell, cell ∈ cells -> cell = None) ->
  Z.of_nat (length (remove_dups (omap id cells))) = 0.
Proof.
  intros Hall. assert (Hnil : omap id cells = []); [|by rewrite Hnil].
  induction cells as [|cell rest IH]; [done|].
  rewrite (Hall cell) by left. cbn. apply IH. intros c Hc. apply Hall. by right.
Qed.

Lemma nunique_zero cells :
  Z.of_nat (length (remove_dups (omap id cells))) <= 0 ->
  forall cell, cell ∈ cells -> cell = None.
Proof.
  intros Hzero [v|] Hin; [|done]. exfalso.
  assert (Hv : v ∈ remove_dups (omap id cells)).
  { apply elem_of_remove_dups, list_elem_of_omap. by exists (Some v). }
  destruct (remove_dups (omap id cells)); [inversion Hv|cbn in Hzero; lia].
Qed.
End Threshold.

(** C10, as the code has it.  [__init__] accepts every categorical
    threshold: with a float size of 16, 32 or 64 it yields a checker holding
    that threshold, whatever its sign.  Under a negative threshold the string
    analyzer returns the empty mapping.  Under a threshold of zero or less it
    maps no column that has a cell which is not missing; the columns it does
    map have no distinct value at all.  Under the threshold zero it maps
    exactly the string columns without a distinct value, those in which every
    cell is missing (or which have no cell). *)
Theorem threshold_is_not_validated df self :
  unique_columns df -> reachable df self ->
  (forall categorical_threshold float_size,
     float_size ∈ [16; 32; 64] ->
     exists fresh, __init__ df categorical_threshold float_size = Ok fresh /\
                   _categorical_threshold fresh = categorical_threshold) /\
  exists m,
    _check_if_strings_could_be_categorical self = Ok m /\
    (_categorical_threshold self < 0 -> m = ∅) /\
    (_categorical_threshold self <= 0 ->
     forall col cells v,
       getitem df col = Ok (ObjectSeries cells) -> Some v ∈ cells -> m !! col = None) /\
    (_categorical_threshold self <= 0 ->
     forall col t, m !! col = Some t ->
       exists cells, getitem df col = Ok (ObjectSeries cells) /\
                     series_nunique (ObjectSeries cells) = Ok 0 /\
                     forall cell, cell ∈ cells -> cell = None) /\
    (_categorical_threshold self = 0 ->
     forall col cells, getitem df col = Ok (ObjectSeries cells) ->
       (m !! col = Some Category <-> series_nunique (ObjectSeries cells) = Ok 0) /\
       (m !! col = Some Category <-> forall cell, cell ∈ cells -> cell = None)).
Proof.
  intros Hwf Hreach. split.
  - intros ct fs Hfs. exists (fresh_checker df ct fs). split; [|done].
    unfold __init__. by rewrite bool_decide_eq_true_2.
  - destruct (string_entries_are_object_columns df self Hwf Hreach) as (m & Hm & Hentries).
    exists m. split; [done|]. split; [|split; [|split]].
    + intros Hneg. apply map_empty. intros col.
      destruct (m !! col) as [t|] eqn:Et; [|done].
      destruct (Hentries col t Et) as (_ & _ & cells & _ & Hle). lia.
    + intros Hle col cells v Hget Hv.
      destruct (m !! col) as [t|] eqn:Et; [|done].
      destruct (Hentries col t Et) as (_ & _ & cells' & Hget' & Hn).
      rewrite Hget in Hget'. injection Hget' as <-.
      assert (Hnone : Some v = None) by (apply (nunique_zero cells); [lia|done]).
      discriminate.
    + intros Hle col t Et.
      destruct (Hentries col t Et) as (_ & _ & cells & Hget & Hn).
      exists cells. split; [done|]. split.
      * cbn. f_equal. lia.
      * apply nunique_zero. lia.
    + intros Hzero col cells Hget.
      pose proof (reachable_inv df Hwf self Hreach) as Hinv.
      assert (Hcol : col ∈ columns_of_kind self "object").
      { rewrite (kind_columns df self "object" Hinv) by (by apply (bool_decide_unpack _)).
        apply select_dtypes_elem. exists (ObjectSeries cells).
        split; [by apply getitem_Ok_elem|done]. }
      destruct (string_entry_of_column df self col cells Hwf Hreach Hcol Hget)
        as (m' & n & Hm' & [= <-] & Hn & Hentry).
      rewrite Hm in Hm'. injection Hm' as <-. rewrite Hentry, Hzero. clear Hentry. cbn.
      split; split.
      * case_decide; [|discriminate]. intros _. f_equal. lia.
      * intros [= Hz]. rewrite decide_True; [done|lia].
      * case_decide; [|discriminate]. intros _. apply nunique_zero. lia.
      * intros Hall. rewrite decide_True; [done|].
        rewrite (all_missing_nunique cells Hall). lia.
Qed.

Lemma threshold_is_not_validated_witness :
  (exists m,
     _check_if_strings_could_be_categorical (fresh_checker HALF_MISSING_DF 0 16) = Ok m /\
     m !! "s"%string = Some Category /\ m !! "t"%string = None) /\
  _check_if_strings_could_be_categorical (fresh_checker MOCK_DF (-3) 16) = Ok ∅.
Proof.
  split.
  - destruct (threshold_is_not_validated HALF_MISSING_DF
                (fresh_checker HALF_MISSING_DF 0 16))
      as (_ & m & Hm & _ & Hvalue & _ & Hexact).
    + apply (bool_decide_unpack _). vm_compute. reflexivity.
    + exists 0, 16, (fresh_checker HALF_MISSING_DF 0 16), []. split; reflexivity.
    + exists m. split; [exact Hm|]. split.
      * apply (Hexact eq_refl "s"%string [None; None]); [vm_compute; reflexivity|].
        intros cell Hcell. rewrite !elem_of_cons in Hcell.
        destruct Hcell as [->|[->|Hcell]]; [reflexivity..|inversion Hcell].
      * apply (Hvalue ltac:(cbn; lia) "t"%string [Some "a"%string; None] "a"%string).
        -- vm_compute. reflexivity.
        -- apply (bool_decide_unpack _). vm_compute. reflexivity.
  - destruct (threshold_is_not_validated MOCK_DF (fresh_checker MOCK_DF (-3) 16))
      as (_ & m & Hm & Hneg & _).
    + apply (bool_decide_unpack _). vm_compute. reflexivity.
    + exists (-3), 16, (fresh_checker MOCK_DF (-3) 16), []. split; reflexivity.
    + rewrite Hm. f_equal. apply Hneg. cbn. lia.
Defined.

(** C10 as stated fails: under the threshold zero a string column whose
    cells are all missing has zero distinct values and is mapped to the
    categorical dtype. *)
Lemma zero_threshold_recommends_empty_column :
  frame_wf MISSING_DF /\
  __init__ MISSING_DF 0 16 = Ok (fresh_checker MISSING_DF 0 16) /\
  _categorical_threshold (fresh_checker MISSING_DF 0 16) <= 0 /\
  getitem MISSING_DF "s" = Ok (ObjectSeries [None; None]) /\
  series_nunique (ObjectSeries [None; None]) = Ok 0 /\
  exists m,
    _check_if_strings_could_be_categorical (fresh_checker MISSING_DF 0 16) = Ok m /\
    m !! "s"%string = Some Category.
Proof.
  split; [apply MISSING_DF_wf|].
  repeat (split; [reflexivity || (cbn; lia)|]).
  exists {[ "s"%string := Category ]}. split; vm_compute; reflexivity.
Qed.

(** * Further properties *)

(** ** The classifier *)

Section Classifier.
Implicit Types (df : DataFrame) (kind col : string).

Lemma separate_dtypes_Some df kind l :
  _separate_dtypes df !! kind = Some l ->
  kind ∈ tracked_kinds /\ l = columns (select_dtypes df kind) /\ l <> [].
Proof.
  unfold _separate_dtypes, tracked_kinds. cbn [foldl].
  destruct (columns (select_dtypes df "float")) eqn:Ef,
           (columns (select_dtypes df "int")) eqn:Ei,
           (columns (select_dtypes df "object")) eqn:Eo;
    repeat (rewrite lookup_insert; case_decide; subst);
    rewrite ?lookup_empty; try discriminate;
    intros [= <-]; rewrite ?Ef, ?Ei, ?Eo; (split; [set_solver|done]).
Qed.
End Classifier.

(** X1.  The partition [_separate_dtypes] builds has no key besides
    ['float'], ['int'] and ['object']; a key is present exactly when the
    frame has a column of that kind, and its value is then the list of those
    columns in frame order, never the empty list. *)
Theorem separate_dtypes_exact df kind l :
  _separate_dtypes df !! kind = Some l <->
  kind ∈ tracked_kinds /\ l = columns (select_dtypes df kind) /\ l <> [].
Proof.
  split; [apply separate_dtypes_Some|].
  intros (Hk & -> & Hne).
  pose proof (separate_dtypes_lookup df kind Hk) as Hl.
  destruct (_separate_dtypes df !! kind) as [l|] eqn:E; cbn in Hl.
  - by rewrite Hl.
  - by rewrite <- Hl in Hne.
Qed.

(** X2.  Over a frame with unique labels every list of the partition is
    duplicate-free and in frame order, the three lists share no column, and a
    boolean or categorical column is in none of them. *)
Theorem partition_classifies_each_column_once df :
  unique_columns df ->
  (forall kind, NoDup (default [] (_separate_dtypes df !! kind)) /\
                default [] (_separate_dtypes df !! kind) `sublist_of` columns df) /\
  (forall kind kind' col,
     col ∈ default [] (_separate_dtypes df !! kind) ->
     col ∈ default [] (_separate_dtypes df !! kind') -> kind = kind') /\
  (forall kind col s,
     getitem df col = Ok s -> dtype_of s = Bool \/ dtype_of s = Category ->
     col ∉ default [] (_separate_dtypes df !! kind)).
Proof.
  intros Hnd.
  assert (Hsub : forall kind,
            default [] (_separate_dtypes df !! kind) `sublist_of` columns df).
  { intros kind. destruct (_separate_dtypes df !! kind) as [l|] eqn:E; cbn.
    - apply separate_dtypes_Some in E as (_ & -> & _).
      unfold columns, select_dtypes. apply fmap_sublist, sublist_filter.
    - apply sublist_nil_l. }
  assert (Helem : forall kind col,
            col ∈ default [] (_separate_dtypes df !! kind) ->
            exists s, getitem df col = Ok s /\ dtype_included kind (dtype_of s) = true).
  { intros kind col. destruct (_separate_dtypes df !! kind) as [l|] eqn:E; cbn.
    - apply separate_dtypes_Some in E as (_ & -> & _).
      intros (s & Hin & Hd)%select_dtypes_elem. exists s. split; [|done].
      by apply getitem_NoDup.
    - by inversion 1. }
  split; [|split].
  - intros kind. split; [|done]. by eapply sublist_NoDup.
  - intros kind kind' col (s & Hget & Hd)%Helem (s' & Hget' & Hd')%Helem.
    rewrite Hget in Hget'. injection Hget' as <-.
    unfold dtype_included in Hd, Hd'.
    repeat case_decide; subst; try done; by destruct (dtype_of s) as [[]|[]| | |].
  - intros kind col s Hget Hd (s' & Hget' & Hk)%Helem.
    rewrite Hget in Hget'. injection Hget' as <-.
    unfold dtype_included in Hk.
    destruct Hd as [Hd|Hd]; rewrite Hd in Hk; by repeat case_decide.
Qed.

Lemma partition_classifies_each_column_once_witness :
  NoDup (default [] (_separate_dtypes MOCK_DF !! "int"%string)) /\
  default [] (_separate_dtypes MOCK_DF !! "int"%string) `sublist_of` columns MOCK_DF.
Proof.
  destruct (partition_classifies_each_column_once MOCK_DF) as (Hlists & _).
  - apply (bool_decide_unpack _). vm_compute. reflexivity.
  - apply (Hlists "int"%string).
Defined.

(** ** The life of a checker *)

Section History.
Context (df : DataFrame) (Hwf : unique_columns df).
Implicit Types (self : DataFrameChecker) (calls : list call).

Lemma identify_twice self :
  checker_inv df self ->
  after (identify_possible_improvements (after (identify_possible_improvements self)))
  = after (identify_possible_improvements self).
Proof.
  intros Hinv.
  pose proof (identify_inv df Hwf self Hinv) as Hinv'.
  destruct (identify_spec df Hwf self Hinv)
    as (f & i & c & Hf & Hi & Hc & _ & _ & _ & Hrun).
  destruct (identify_spec df Hwf _ Hinv')
    as (f' & i' & c' & Hf' & Hi' & Hc' & _ & _ & _ & Hrun').
  rewrite Hrun' at 1. rewrite Hrun in Hf', Hi', Hc' |- *. cbn [after] in *.
  change (_flag_float_column_improvements (with_analysed (with_improvements self _) _))
    with (_flag_float_column_improvements self) in Hf'.
  change (_check_if_integer_sizes_can_be_reduced (with_analysed (with_improvements self _) _))
    with (_check_if_integer_sizes_can_be_reduced self) in Hi'.
  change (_check_if_strings_could_be_categorical (with_analysed (with_improvements self _) _))
    with (_check_if_strings_could_be_categorical self) in Hc'.
  rewrite Hf in Hf'. rewrite Hi in Hi'. rewrite Hc in Hc'.
  injection Hf' as <-. injection Hi' as <-. injection Hc' as <-.
  unfold with_analysed, with_improvements.
  cbn [_all_possible_improvements _dataframe_has_been_analysed _df
       _categorical_threshold _columns_by_type _float_size].
  f_equal. apply update_thrice_again.
Qed.

Lemma run_collapse self calls :
  checker_inv df self ->
  run self calls =
  if bool_decide (Identify ∈ calls) then after (identify_possible_improvements self)
  else self.
Proof.
  revert self. induction calls as [|c calls IH]; intros self Hinv.
  - rewrite bool_decide_eq_false_2; [done|]. by inversion 1.
  - change (run self (c :: calls)) with (run (step self c) calls).
    rewrite IH by by apply step_inv.
    destruct c; cbn [step].
    + rewrite (bool_decide_eq_true_2 (Identify ∈ Identify :: calls)) by left.
      rewrite identify_twice by done. by case_bool_decide.
    + apply (f_equal (fun b : bool =>
                        if b then after (identify_possible_improvements self) else self)).
      apply bool_decide_ext. rewrite elem_of_cons. split; [by right|]. by intros [?|?].
    + rewrite cast_after.
      apply (f_equal (fun b : bool =>
                        if b then after (identify_possible_improvements self) else self)).
      apply bool_decide_ext. rewrite elem_of_cons. split; [by right|]. by intros [?|?].
Qed.
End History.

(** X3.  Whatever sequence of public calls a checker has seen, it is in one
    of two states: as [__init__] built it while the analysis has not been
    called, and as a single analysis leaves it from the first analysis on.
    Failed or successful materializations and reads of the mapping leave no
    trace, and a repeated analysis changes nothing. *)
Theorem checker_has_two_states df categorical_threshold float_size fresh calls :
  unique_columns df ->
  __init__ df categorical_threshold float_size = Ok fresh ->
  (Identify ∉ calls -> run fresh calls = fresh) /\
  (Identify ∈ calls -> run fresh calls = run fresh [Identify]).
Proof.
  intros Hwf Hinit. pose proof (init_inv df _ _ _ Hinit) as Hinv.
  rewrite (run_collapse df Hwf fresh calls Hinv). split; intros H.
  - by rewrite bool_decide_eq_false_2.
  - by rewrite bool_decide_eq_true_2.
Qed.

Lemma checker_has_two_states_witness :
  run (fresh_checker MOCK_DF 15 16) [Cast; Identify; GetPossibleDtypes; Identify; Cast]
  = run (fresh_checker MOCK_DF 15 16) [Identify].
Proof.
  apply (checker_has_two_states MOCK_DF 15 16).
  - apply (bool_decide_unpack _). vm_compute. reflexivity.
  - reflexivity.
  - apply (bool_decide_unpack _). vm_compute. reflexivity.
Defined.

Section CastErrors.
Implicit Types (df : DataFrame) (mapping : gmap string dtype).

(** What [astype] raises is never a [UserWarning]. *)
Lemma astype_columns_raise_class df mapping e :
  astype_columns df mapping = Raise e -> class_of e = PandasError_class.
Proof.
  induction df as [|[name s] rest IH]; cbn [astype_columns]; [discriminate|].
  assert (Hs : forall t e', series_astype s t = Raise e' -> class_of e' = PandasError_class).
  { intros t e'. unfold series_astype. case_decide; [discriminate|].
    destruct s, t; try discriminate; try (by intros [= <-]).
    destruct (float_format w0). discriminate. }
  destruct (mapping !! name) as [t|].
  - destruct (series_astype s t) as [s'|e'] eqn:Es; cbn [bind].
    + destruct (astype_columns rest mapping); cbn [bind]; [discriminate|].
      intros [= <-]. by apply IH.
    + intros [= <-]. by eapply Hs.
  - cbn [bind]. destruct (astype_columns rest mapping); cbn [bind]; [discriminate|].
    intros [= <-]. by apply IH.
Qed.

Lemma astype_raise_class df mapping e :
  astype df mapping = Raise e -> class_of e <> UserWarning_class.
Proof.
  unfold astype. destruct (filter _ _).
  - intros H%astype_columns_raise_class. by rewrite H.
  - by intros [= <-].
Qed.
End CastErrors.

(** X4.  Take a checker built by [__init__] whose analysis returns
    normally, after any sequence of public calls.  Materialization raises a
    [UserWarning] exactly when [get_possible_dtypes] is empty; with a
    non-empty mapping its outcome is that of [astype] on the held frame, and
    an exception it then raises is not a [UserWarning]. *)
Theorem cast_warns_iff_mapping_empty df categorical_threshold float_size fresh calls :
  unique_columns df ->
  __init__ df categorical_threshold float_size = Ok fresh ->
  returned (identify_possible_improvements fresh) = Ok tt ->
  (get_possible_dtypes (run fresh calls) = ∅ <->
   exists e, returned (cast_dataframe_to_lower_memory_version (run fresh calls)) = Raise e /\
             class_of e = UserWarning_class) /\
  (get_possible_dtypes (run fresh calls) <> ∅ ->
   returned (cast_dataframe_to_lower_memory_version (run fresh calls))
   = astype df (get_possible_dtypes (run fresh calls))).
Proof.
  intros Hwf Hinit _. pose proof (init_inv df _ _ _ Hinit) as Hfresh.
  pose proof (run_inv df Hwf fresh calls Hfresh) as Hinv.
  set (self := run fresh calls) in *. unfold get_possible_dtypes.
  destruct (decide (_all_possible_improvements self = ∅)) as [Hempty|Hsome].
  - split; [|done]. split; [|done]. intros _.
    unfold cast_dataframe_to_lower_memory_version.
    destruct (_dataframe_has_been_analysed self); cbn [negb]; [|by eexists].
    rewrite bool_decide_eq_true_2 by done. by eexists.
  - assert (Hflag : _dataframe_has_been_analysed self = true).
    { destruct (_dataframe_has_been_analysed self) eqn:E; [done|].
      by destruct Hsome; apply (inv_unanalysed _ _ Hinv). }
    assert (Hcast : returned (cast_dataframe_to_lower_memory_version self)
                    = astype df (_all_possible_improvements self)).
    { unfold cast_dataframe_to_lower_memory_version. rewrite Hflag. cbn [negb].
      rewrite bool_decide_eq_false_2 by done. cbn [returned].
      by rewrite (inv_df _ _ Hinv). }
    split; [|done]. split; [done|]. intros (e & He & Hclass).
    rewrite Hcast in He. by apply astype_raise_class in He.
Qed.

Lemma cast_warns_iff_mapping_empty_witness :
  get_possible_dtypes (run (fresh_checker MOCK_DF_NO_IMPROVEMENTS 15 16) [Identify; Cast]) = ∅ <->
  exists e,
    returned (cast_dataframe_to_lower_memory_version
                (run (fresh_checker MOCK_DF_NO_IMPROVEMENTS 15 16) [Identify; Cast]))
    = Raise e /\ class_of e = UserWarning_class.
Proof.
  apply (cast_warns_iff_mapping_empty MOCK_DF_NO_IMPROVEMENTS 15 16).
  - apply (bool_decide_unpack _). vm_compute. reflexivity.
  - reflexivity.
  - vm_compute. reflexivity.
Defined.

(** X5.  No sequence of calls, on any checker and whether or not a call
    fails, changes the frame, the cached partition, the float size or the
    categorical threshold; on a checker built by [__init__] these stay the
    constructor's arguments and the partition stays the classification of the
    frame. *)
Theorem configuration_is_never_changed df categorical_threshold float_size fresh :
  __init__ df categorical_threshold float_size = Ok fresh ->
  (forall self calls,
     _df (run self calls) = _df self /\
     _columns_by_type (run self calls) = _columns_by_type self /\
     _float_size (run self calls) = _float_size self /\
     _categorical_threshold (run self calls) = _categorical_threshold self) /\
  (forall calls,
     _df (run fresh calls) = df /\
     _columns_by_type (run fresh calls) = _separate_dtypes df /\
     _float_size (run fresh calls) = float_size /\
     _categorical_threshold (run fresh calls) = categorical_threshold).
Proof.
  intros [_ ->]%init_Ok. split; [apply run_keeps_configuration|].
  intros calls.
  by destruct (run_keeps_configuration (fresh_checker df categorical_threshold float_size)
                 calls) as (-> & -> & -> & ->).
Qed.

Lemma configuration_is_never_changed_witness :
  _df (run (fresh_checker MOCK_DF 5 32) [Identify; Cast]) = MOCK_DF /\
  _columns_by_type (run (fresh_checker MOCK_DF 5 32) [Identify; Cast])
  = _separate_dtypes MOCK_DF /\
  _float_size (run (fresh_checker MOCK_DF 5 32) [Identify; Cast]) = 32 /\
  _categorical_threshold (run (fresh_checker MOCK_DF 5 32) [Identify; Cast]) = 5.
Proof.
  destruct (configuration_is_never_changed MOCK_DF 5 32 (fresh_checker MOCK_DF 5 32))
    as (_ & Hfresh).
  - reflexivity.
  - apply (Hfresh [Identify; Cast]).
Defined.

(** ** What a recommendation can be *)

Section Entries.
Context (df : DataFrame) (Hwf : unique_columns df).
Implicit Types (self : DataFrameChecker) (col : string) (t : dtype).

(** Every recommendation a checker holds is of one of three shapes. *)
Lemma entry_shape self col t :
  checker_inv df self ->
  _all_possible_improvements self !! col = Some t ->
  (exists w0 cells w,
     getitem df col = Ok (IntSeries w0 cells) /\ (w0 = W32 \/ w0 = W64) /\
     t = Int w /\ chosen_width (list_min cells) (list_max cells) = Some w) \/
  (exists w0 cells w,
     getitem df col = Ok (FloatSeries w0 cells) /\ (w0 = F32 \/ w0 = F64) /\
     t = Float w /\ (w = F16 \/ w = F32) /\ _float_size self = float_bits w) \/
  (exists cells,
     getitem df col = Ok (ObjectSeries cells) /\ t = Category /\
     Z.of_nat (length (remove_dups (omap id cells))) <= _categorical_threshold self).
Proof.
  intros Hinv Ht. destruct (inv_entries _ _ Hinv col t Ht) as [Hf|[Hi|Hs]].
  - right. left. unfold float_entry in Hf. case_decide as Hcol; [|discriminate].
    destruct (float_kind_series df Hwf self col Hinv Hcol) as (w0 & cells & Hget & Hw0).
    unfold float_answer in Hf. case_decide; [discriminate|].
    pose proof (inv_float_size _ _ Hinv) as Hfs.
    repeat (apply elem_of_cons in Hfs as [Hfs|Hfs]; [rewrite Hfs in *|]);
      [| |done|inversion Hfs]; injection Hf as <-.
    + exists w0, cells, F16. repeat split; auto.
    + exists w0, cells, F32. repeat split; auto.
  - left. unfold int_entry in Hi. case_decide as Hcol; [|discriminate].
    destruct (int_kind_series df Hwf self col Hinv Hcol) as (w0 & cells & Hget & Hw0).
    unfold int_answer in Hi. rewrite (inv_df _ _ Hinv), Hget in Hi.
    destruct (chosen_width _ _) as [w|] eqn:Ew; [|discriminate].
    injection Hi as <-. exists w0, cells, w. repeat split; auto.
  - right. right. unfold string_entry, string_answer in Hs.
    rewrite (inv_df _ _ Hinv) in Hs. case_decide; [|discriminate].
    destruct (getitem df col) as [[]|]; try discriminate.
    case_decide; [|discriminate]. injection Hs as <-. eauto.
Qed.

(** A frame returned by materialization, column by column. *)
Lemma cast_columns_spec self new col s :
  returned (cast_dataframe_to_lower_memory_version self) = Ok new ->
  getitem (_df self) col = Ok s ->
  exists s', getitem new col = Ok s' /\
             match _all_possible_improvements self !! col with
             | Some target => series_astype s target = Ok s'
             | None => s' = s
             end.
Proof.
  intros (_ & _ & Hnew)%cast_Ok Hget.
  apply astype_Ok, astype_columns_cast_of in Hnew.
  by eapply cast_of_getitem.
Qed.

Lemma wrap_signed w v :
  in_signed_range (int_bits w) v -> wrap (int_bits w) v = v.
Proof.
  unfold wrap, in_signed_range. destruct w; cbn; intros Hv; rewrite Z.mod_small; lia.
Qed.
End Entries.

(** X6.  Every recommendation a checker in use holds is keyed by a column
    of the frame and keeps the column's kind: an integer column (int32 or
    int64) is mapped to int8, int16 or int32, a float column (float32 or
    float64) to float16 or float32 according to the float size, a string
    column to the categorical dtype.  int64, float64, the object and the
    boolean dtype are never recommended. *)
Theorem recommendations_are_narrowing_targets df self col t :
  unique_columns df -> reachable df self ->
  get_possible_dtypes self !! col = Some t ->
  col ∈ columns df /\
  t ∈ [int8; int16; int32; float16; float32; Category] /\
  exists s, getitem df col = Ok s /\
    match s with
    | IntSeries w0 _ => (w0 = W32 \/ w0 = W64) /\ t ∈ [int8; int16; int32]
    | FloatSeries w0 _ =>
        (w0 = F32 \/ w0 = F64) /\
        (t = float16 /\ _float_size self = 16 \/ t = float32 /\ _float_size self = 32)
    | ObjectSeries _ => t = Category
    | _ => False
    end.
Proof.
  intros Hwf Hreach Ht. pose proof (reachable_inv df Hwf self Hreach) as Hinv.
  destruct (entry_shape df Hwf self col t Hinv Ht)
    as [(w0 & cells & w & Hget & Hw0 & -> & Hw)
       |[(w0 & cells & w & Hget & Hw0 & -> & Hw & Hfs)
        |(cells & Hget & -> & _)]].
  - assert (Hcand : w ∈ candidate_widths).
    { unfold chosen_width in Hw.
      destruct (list_min cells), (list_max cells); try discriminate.
      by apply smallest_fitting_width_Some in Hw as [? _]. }
    assert (Ht' : Int w ∈ [int8; int16; int32]).
    { unfold candidate_widths in Hcand.
      repeat (apply elem_of_cons in Hcand as [->|Hcand]);
        [by apply (bool_decide_unpack _)..|inversion Hcand]. }
    split; [by eapply getitem_columns|]. split.
    + unfold candidate_widths in Hcand.
      repeat (apply elem_of_cons in Hcand as [->|Hcand]);
        [by apply (bool_decide_unpack _)..|inversion Hcand].
    + exists (IntSeries w0 cells). auto.
  - split; [by eapply getitem_columns|]. split.
    + destruct Hw as [->| ->]; by apply (bool_decide_unpack _).
    + exists (FloatSeries w0 cells). split; [done|]. split; [done|].
      destruct Hw as [->| ->]; cbn in Hfs; auto.
  - split; [by eapply getitem_columns|]. split; [by apply (bool_decide_unpack _)|].
    by exists (ObjectSeries cells).
Qed.

Lemma recommendations_are_narrowing_targets_witness :
  "floats"%string ∈ columns MOCK_DF /\
  float16 ∈ [int8; int16; int32; float16; float32; Category].
Proof.
  destruct (recommendations_are_narrowing_targets MOCK_DF
              (run (fresh_checker MOCK_DF 15 16) [Identify]) "floats" float16)
    as (Hcol & Ht & _).
  - apply (bool_decide_unpack _). vm_compute. reflexivity.
  - exists 15, 16, (fresh_checker MOCK_DF 15 16), [Identify]. split; reflexivity.
  - vm_compute. reflexivity.
  - split; [exact Hcol|exact Ht].
Defined.

(** X7.  The width the integer analyzer gives a column accommodates every
    cell of the column, not only its extremes, and each narrower candidate
    misses at least one cell. *)
Theorem recommended_width_accommodates_cells df self m col w0 cells w :
  unique_columns df -> reachable df self ->
  _check_if_integer_sizes_can_be_reduced self = Ok m ->
  getitem df col = Ok (IntSeries w0 cells) ->
  m !! col = Some (Int w) ->
  (forall v, v ∈ cells -> (signed_range w).1 <= v <= (signed_range w).2) /\
  (forall w', w' ∈ candidate_widths -> int_bits w' < int_bits w ->
     exists v, v ∈ cells /\ ~ (signed_range w').1 <= v <= (signed_range w').2).
Proof.
  intros Hwf Hreach Hm Hget Hw.
  pose proof (reachable_inv df Hwf self Hreach) as Hinv.
  destruct (integer_analyzer_spec df Hwf self Hinv) as (m' & Hm' & Hlook).
  rewrite Hm in Hm'. injection Hm' as <-.
  rewrite Hlook in Hw. unfold int_entry, int_answer in Hw.
  case_decide; [|discriminate]. rewrite (inv_df _ _ Hinv), Hget in Hw.
  unfold chosen_width in Hw.
  destruct (list_min cells) as [lo|] eqn:Elo; [|discriminate].
  destruct (list_max cells) as [hi|] eqn:Ehi; [|discriminate].
  destruct (smallest_fitting_width lo hi) as [w1|] eqn:Ew; [|discriminate].
  injection Hw as ->.
  apply smallest_fitting_width_Some in Ew as (_ & [Hlo Hhi] & Hsmall).
  apply list_min_is_minimum in Elo as [Hlo_in Hlo_min].
  apply list_max_is_maximum in Ehi as [Hhi_in Hhi_max]. split.
  - intros v Hv. specialize (Hlo_min v Hv). specialize (Hhi_max v Hv). lia.
  - intros w' Hw' Hlt. specialize (Hsmall w' Hw' Hlt). unfold contains in Hsmall.
    destruct (decide ((signed_range w').1 <= lo)) as [Hl|Hl].
    + exists hi. split; [done|]. intros [_ Hh]. apply Hsmall. by split.
    + exists lo. split; [done|]. by intros [Hl' _].
Qed.

Lemma recommended_width_accommodates_cells_witness :
  (signed_range W16).1 <= 32767 <= (signed_range W16).2 /\
  exists v, v ∈ [-32768; 0; 0; 0; 32767] /\ ~ (signed_range W8).1 <= v <= (signed_range W8).2.
Proof.
  destruct (recommended_width_accommodates_cells MOCK_DF (fresh_checker MOCK_DF 15 16)
           {[ "int_smaller_than_int8"%string := int8;
              "int_smaller_than_int16"%string := int16;
              "int_smaller_than_int32"%string := int32 ]}
           "int_smaller_than_int16" W64 [-32768; 0; 0; 0; 32767] W16) as (Hall & Hsmaller).
  - apply (bool_decide_unpack _). vm_compute. reflexivity.
  - exists 15, 16, (fresh_checker MOCK_DF 15 16), []. split; reflexivity.
  - vm_compute. reflexivity.
  - vm_compute. reflexivity.
  - vm_compute. reflexivity.
  - split.
    + apply Hall. apply (bool_decide_unpack _). vm_compute. reflexivity.
    + apply (Hsmaller W8).
      * apply (bool_decide_unpack _). vm_compute. reflexivity.
      * vm_compute. reflexivity.
Defined.

(** ** The materialized frame *)

(** X8.  Under a checker in use, every integer column of the materialized
    frame has the cells of the original column and a width that is at most
    the original one; every float column has as many cells as the original
    and a width that is at most the original one; a string column comes out
    unchanged or as a categorical column with the same cells; a boolean or
    categorical column comes out unchanged. *)
Theorem materialization_never_widens df self new col s :
  unique_columns df -> reachable df self ->
  returned (cast_dataframe_to_lower_memory_version self) = Ok new ->
  getitem df col = Ok s ->
  exists s',
    getitem new col = Ok s' /\ series_length s' = series_length s /\
    match s with
    | IntSeries w0 cells =>
        exists w, s' = IntSeries w cells /\ int_bits w <= int_bits w0
    | FloatSeries w0 cells =>
        exists w cells', s' = FloatSeries w cells' /\ float_bits w <= float_bits w0
    | ObjectSeries cells => s' = ObjectSeries cells \/ s' = CategorySeries cells
    | BoolSeries _ | CategorySeries _ => s' = s
    end.
Proof.
  intros Hwf Hreach Hnew Hget.
  pose proof (reachable_inv df Hwf self Hreach) as Hinv.
  rewrite <- (inv_df _ _ Hinv) in Hget.
  destruct (cast_columns_spec self new col s Hnew Hget) as (s' & Hget' & Hcast).
  rewrite (inv_df _ _ Hinv) in Hget.
  exists s'. split; [done|].
  destruct (_all_possible_improvements self !! col) as [t|] eqn:Et.
  - destruct (entry_shape df Hwf self col t Hinv Et)
      as [(w0 & cells & w & Hget1 & Hw0 & -> & Hw)
         |[(w0 & cells & w & Hget1 & Hw0 & -> & Hw & Hfs)
          |(cells & Hget1 & -> & _)]];
      rewrite Hget in Hget1; injection Hget1 as ->.
    + destruct (recommended_int_cast df Hwf self col w0 cells (Int w) Hinv Hget Et)
        as (w' & [= <-] & Hcast').
      rewrite Hcast in Hcast'. injection Hcast' as ->. split; [done|].
      exists w. split; [done|].
      assert (Hcand : w ∈ candidate_widths).
      { unfold chosen_width in Hw.
        destruct (list_min cells), (list_max cells); try discriminate.
        by apply smallest_fitting_width_Some in Hw as [? _]. }
      unfold candidate_widths in Hcand.
      repeat (apply elem_of_cons in Hcand as [->|Hcand]); [..|inversion Hcand];
        destruct Hw0 as [->| ->]; cbn; lia.
    + unfold series_astype in Hcast. cbn [dtype_of] in Hcast.
      case_decide as Hsame.
      * injection Hcast as <-. injection Hsame as ->. split; [done|].
        exists w, cells. split; [done|lia].
      * destruct (float_format w) as [prec emax]. injection Hcast as <-. split.
        -- cbn. by rewrite length_fmap.
        -- eexists w, _. split; [done|].
           destruct Hw as [->| ->], Hw0 as [->| ->]; cbn; lia.
    + cbn in Hcast. injection Hcast as <-. split; [done|]. by right.
  - subst s'. split; [done|]. destruct s; try done.
    + exists w. split; [done|lia].
    + exists w, cells. split; [done|lia].
    + by left.
Qed.

Lemma materialization_never_widens_witness :
  exists s',
    getitem LOWER_MEMORY_DF "int_smaller_than_int16" = Ok s' /\
    series_length s' = 5%nat /\
    exists w, s' = IntSeries w [-32768; 0; 0; 0; 32767] /\ int_bits w <= int_bits W64.
Proof.
  apply (materialization_never_widens MOCK_DF
           (run (fresh_checker MOCK_DF 15 16) [Identify]) LOWER_MEMORY_DF
           "int_smaller_than_int16" (IntSeries W64 [-32768; 0; 0; 0; 32767])).
  - apply (bool_decide_unpack _). vm_compute. reflexivity.
  - exists 15, 16, (fresh_checker MOCK_DF 15 16), [Identify]. split; reflexivity.
  - vm_compute. reflexivity.
  - vm_compute. reflexivity.
Defined.

(** X9.  Integer narrowing is a round trip: casting an integer column of
    the materialized frame back to the width the original column had gives the
    original column, provided the original cells fit their own width. *)
Theorem integer_narrowing_round_trip df self new col w0 cells s' :
  unique_columns df -> reachable df self ->
  returned (cast_dataframe_to_lower_memory_version self) = Ok new ->
  getitem df col = Ok (IntSeries w0 cells) ->
  series_wf (IntSeries w0 cells) ->
  getitem new col = Ok s' ->
  series_astype s' (Int w0) = Ok (IntSeries w0 cells).
Proof.
  intros Hwf Hreach Hnew Hget Hcells Hget'.
  pose proof (reachable_inv df Hwf self Hreach) as Hinv.
  rewrite <- (inv_df _ _ Hinv) in Hget.
  destruct (cast_columns_spec self new col _ Hnew Hget) as (s1 & Hget1 & Hcast).
  rewrite (inv_df _ _ Hinv) in Hget.
  rewrite Hget' in Hget1. injection Hget1 as <-.
  assert (exists w, s' = IntSeries w cells) as [w ->].
  { destruct (_all_possible_improvements self !! col) as [t|] eqn:Et.
    - destruct (recommended_int_cast df Hwf self col w0 cells t Hinv Hget Et)
        as (w & -> & Hcast').
      rewrite Hcast in Hcast'. injection Hcast' as ->. by exists w.
    - exists w0. by subst. }
  unfold series_astype. cbn [dtype_of]. case_decide as Hsame.
  - by injection Hsame as ->.
  - f_equal. f_equal. apply fmap_fixed. intros v Hv. apply wrap_signed.
    cbn in Hcells. rewrite Forall_forall in Hcells. by apply Hcells.
Qed.

Lemma integer_narrowing_round_trip_witness :
  series_astype (IntSeries W8 [-128; 0; 0; 0; 127]) (Int W64) = Ok (IntSeries W64 [-128; 0; 0; 0; 127]).
Proof.
  apply (integer_narrowing_round_trip MOCK_DF
           (run (fresh_checker MOCK_DF 15 16) [Identify]) LOWER_MEMORY_DF
           "int_smaller_than_int8").
  - apply (bool_decide_unpack _). vm_compute. reflexivity.
  - exists 15, 16, (fresh_checker MOCK_DF 15 16), [Identify]. split; reflexivity.
  - vm_compute. reflexivity.
  - vm_compute. reflexivity.
  - apply (bool_decide_unpack _). vm_compute. reflexivity.
  - vm_compute. reflexivity.
Defined.

(** ** The analyzers on their own *)

(** X10.  Raising the categorical threshold never loses a categorical
    recommendation: over the same frame, the string analyzer's output under a
    threshold is contained in its output under any larger threshold. *)
Theorem categorical_threshold_is_monotone df self self' :
  unique_columns df -> reachable df self -> reachable df self' ->
  _categorical_threshold self <= _categorical_threshold self' ->
  exists m m',
    _check_if_strings_could_be_categorical self = Ok m /\
    _check_if_strings_could_be_categorical self' = Ok m' /\
    m ⊆ m'.
Proof.
  intros Hwf Hreach Hreach' Hle.
  pose proof (reachable_inv df Hwf self Hreach) as Hinv.
  pose proof (reachable_inv df Hwf self' Hreach') as Hinv'.
  destruct (string_analyzer_spec df Hwf self Hinv) as (m & Hm & Hlook).
  destruct (string_analyzer_spec df Hwf self' Hinv') as (m' & Hm' & Hlook').
  exists m, m'. split; [done|]. split; [done|].
  apply map_subseteq_spec. intros k t. rewrite Hlook, Hlook'.
  unfold string_entry, string_answer, columns_of_kind.
  rewrite (inv_df _ _ Hinv), (inv_df _ _ Hinv'),
    (inv_columns _ _ Hinv), (inv_columns _ _ Hinv').
  case_decide; [|done]. destruct (getitem df k) as [[]|]; try done.
  repeat case_decide; try done; lia.
Qed.

Lemma categorical_threshold_is_monotone_witness :
  exists m m',
    _check_if_strings_could_be_categorical (fresh_checker MOCK_DF 3 16) = Ok m /\
    _check_if_strings_could_be_categorical (fresh_checker MOCK_DF 15 16) = Ok m' /\
    m ⊆ m'.
Proof.
  apply (categorical_threshold_is_monotone MOCK_DF).
  - apply (bool_decide_unpack _). vm_compute. reflexivity.
  - exists 3, 16, (fresh_checker MOCK_DF 3 16), []. split; reflexivity.
  - exists 15, 16, (fresh_checker MOCK_DF 15 16), []. split; reflexivity.
  - cbn. lia.
Defined.

(** X11.  On any checker, also one on which an analyzer fails, the analyze
    operation never removes an entry of the mapping and never lowers the
    analysed flag; the flag is raised only when all three analyzers have
    returned. *)
Theorem analysis_never_forgets self :
  (forall k, is_Some (get_possible_dtypes self !! k) ->
             is_Some (get_possible_dtypes (after (identify_possible_improvements self)) !! k)) /\
  (_dataframe_has_been_analysed self = true ->
   _dataframe_has_been_analysed (after (identify_possible_improvements self)) = true) /\
  (forall e, returned (identify_possible_improvements self) = Raise e ->
             _dataframe_has_been_analysed (after (identify_possible_improvements self))
             = _dataframe_has_been_analysed self) /\
  (returned (identify_possible_improvements self) = Ok tt ->
   _dataframe_has_been_analysed (after (identify_possible_improvements self)) = true).
Proof.
  unfold identify_possible_improvements, get_possible_dtypes.
  destruct (_flag_float_column_improvements self) as [f|]; [|by repeat split].
  destruct (_check_if_integer_sizes_can_be_reduced _) as [i|].
  2:{ cbn. repeat split; try done. intros k Hk. unfold update.
      rewrite lookup_union_is_Some. by right. }
  destruct (_check_if_strings_could_be_categorical _) as [c|]; cbn;
    repeat split; try done; intros k Hk; unfold update;
    rewrite !lookup_union_is_Some; auto.
Qed.

(** X12.  If no column of the frame is of a kind the classifier tracks (for
    one, a frame of boolean columns only), the analysis finds nothing and a
    materialization after it raises the no-improvements error, whatever the
    threshold and the float size. *)
Theorem untracked_frame_has_no_improvements df categorical_threshold float_size fresh :
  (forall kind, kind ∈ tracked_kinds -> select_dtypes df kind = []) ->
  __init__ df categorical_threshold float_size = Ok fresh ->
  returned (identify_possible_improvements fresh) = Ok tt /\
  get_possible_dtypes (run fresh [Identify]) = ∅ /\
  returned (cast_dataframe_to_lower_memory_version (run fresh [Identify]))
  = Raise NoImprovementsFoundError.
Proof.
  intros Hnone [_ ->]%init_Ok.
  assert (Hpart : _separate_dtypes df = ∅).
  { unfold _separate_dtypes. cbn [foldl].
    by rewrite !Hnone by (apply (bool_decide_unpack _); vm_compute; reflexivity). }
  unfold run. cbn [foldl step].
  unfold identify_possible_improvements, _flag_float_column_improvements,
    _check_if_integer_sizes_can_be_reduced, _check_if_strings_could_be_categorical.
  cbn [fresh_checker with_improvements _columns_by_type _float_size
       _all_possible_improvements].
  rewrite Hpart, !lookup_empty.
  by case_bool_decide.
Qed.

Lemma untracked_frame_has_no_improvements_witness :
  returned (cast_dataframe_to_lower_memory_version
              (run (fresh_checker MOCK_DF_NO_IMPROVEMENTS 15 16) [Identify]))
  = Raise NoImprovementsFoundError.
Proof.
  apply (untracked_frame_has_no_improvements MOCK_DF_NO_IMPROVEMENTS 15 16).
  - intros kind Hk. unfold tracked_kinds in Hk.
    repeat (apply elem_of_cons in Hk as [->|Hk]); [reflexivity..|inversion Hk].
  - reflexivity.
Defined.

(** X13.  With a float size of 16 or 32, the analysis of a fresh checker
    records for every float32 or float64 column the float dtype of exactly
    that size; and whenever the materialization that follows returns a frame,
    the column is in it at that size, with as many cells as it had. *)
Theorem float_column_is_recommended
    df categorical_threshold float_size fresh col w cells :
  unique_columns df ->
  __init__ df categorical_threshold float_size = Ok fresh ->
  float_size <> 64 ->
  getitem df col = Ok (FloatSeries w cells) -> w = F32 \/ w = F64 ->
  exists w',
    float_bits w' = float_size /\
    get_possible_dtypes (run fresh [Identify]) !! col = Some (Float w') /\
    forall new,
      returned (cast_dataframe_to_lower_memory_version (run fresh [Identify])) = Ok new ->
      exists cells', getitem new col = Ok (FloatSeries w' cells') /\
                     length cells' = length cells.
Proof.
  intros Hwf Hinit Hfs Hget Hw.
  pose proof (init_inv df _ _ _ Hinit) as Hinv.
  pose proof (identify_inv df Hwf fresh Hinv) as Hinv'.
  apply init_Ok in Hinit as [Hsize ->].
  set (fresh := fresh_checker df categorical_threshold float_size) in *.
  change (run fresh [Identify]) with (after (identify_possible_improvements fresh)).
  assert (Hcol : col ∈ columns_of_kind fresh "float").
  { rewrite (kind_columns df fresh "float" Hinv) by (by apply (bool_decide_unpack _)).
    apply select_dtypes_elem. exists (FloatSeries w cells).
    split; [by apply getitem_Ok_elem|]. by destruct Hw as [->| ->]. }
  assert (exists w', float_answer float_size = Some (Float w') /\ float_bits w' = float_size)
    as (w' & Hans & Hbits).
  { unfold float_answer. rewrite decide_False by done.
    repeat (apply elem_of_cons in Hsize as [->|Hsize]);
      [by exists F16|by exists F32|done|inversion Hsize]. }
  assert (Hentry : _all_possible_improvements (after (identify_possible_improvements fresh))
                   !! col = Some (Float w')).
  { rewrite (identify_entries df Hwf fresh col Hinv). unfold merged_entry.
    destruct (partitions_disjoint df Hwf fresh col Hinv) as (Hfi & Hfo & _).
    destruct (entry_in_partition fresh col) as (_ & Hi & Hs).
    destruct (string_entry fresh col) eqn:Es; [destruct Hfo; [done|by apply Hs]|].
    destruct (int_entry fresh col) eqn:Ei; [destruct Hfi; [done|by apply Hi]|].
    unfold float_entry. rewrite decide_True by done.
    change (_float_size fresh) with float_size. by rewrite Hans. }
  exists w'. split; [done|]. split; [done|]. intros new Hnew.
  assert (Hget0 : getitem (_df (after (identify_possible_improvements fresh))) col
                  = Ok (FloatSeries w cells)) by by rewrite (inv_df _ _ Hinv').
  destruct (cast_columns_spec _ new col _ Hnew Hget0) as (s' & Hget' & Hcast).
  rewrite Hentry in Hcast. unfold series_astype in Hcast. cbn [dtype_of] in Hcast.
  case_decide as Hsame.
  - injection Hcast as <-. injection Hsame as ->. by exists cells.
  - destruct (float_format w') as [prec emax]. injection Hcast as <-.
    eexists. split; [done|]. by rewrite length_fmap.
Qed.

Lemma float_column_is_recommended_witness :
  exists w',
    float_bits w' = 32 /\
    get_possible_dtypes (run (fresh_checker FLOAT_DF 0 32) [Identify]) !! "x"%string
    = Some (Float w') /\
    exists new cells',
      returned (cast_dataframe_to_lower_memory_version
                  (run (fresh_checker FLOAT_DF 0 32) [Identify])) = Ok new /\
      getitem new "x" = Ok (FloatSeries w' cells') /\ length cells' = 2%nat.
Proof.
  destruct (float_column_is_recommended FLOAT_DF 0 32
              (fresh_checker FLOAT_DF 0 32) "x" F64 [half; S754_zero false])
    as (w' & Hbits & Hentry & Hcast).
  - apply (bool_decide_unpack _). vm_compute. reflexivity.
  - reflexivity.
  - discriminate.
  - vm_compute. reflexivity.
  - right. reflexivity.
  - exists w'. split; [exact Hbits|]. split; [exact Hentry|].
    assert (Hnew : exists new,
              returned (cast_dataframe_to_lower_memory_version
                          (run (fresh_checker FLOAT_DF 0 32) [Identify])) = Ok new)
      by (eexists; vm_compute; reflexivity).
    destruct Hnew as [new Hnew]. destruct (Hcast new Hnew) as (cells' & Hget & Hlen).
    exists new, cells'. split; [exact Hnew|]. split; [exact Hget|exact Hlen].
Defined.

(** X14.  The float analyzer looks the float size up only when there is a
    float column.  On a checker whose float size is none of 16, 32, 64 (one
    that did not come out of [__init__]) it returns the empty mapping if the
    partition has no float column and raises [KeyError] otherwise; the
    analysis then stops after its first progress line and leaves the checker
    as it was. *)
Theorem float_analyzer_needs_valid_size self :
  _float_size self ∉ [16; 32; 64] ->
  (columns_of_kind self "float" = [] ->
   _flag_float_column_improvements self = Ok ∅) /\
  (columns_of_kind self "float" <> [] ->
   _flag_float_column_improvements self = Raise (KeyError (pretty (_float_size self))) /\
   identify_possible_improvements self =
   {| after := self;
      printed := ["Checking float columns if reduced precision requested"]%string;
      returned := Raise (KeyError (pretty (_float_size self))) |}).
Proof.
  intros Hfs.
  assert (Hne : _float_size self <> 64).
  { intros E. apply Hfs. rewrite E. by apply (bool_decide_unpack _). }
  assert (Hmiss : float_size_to_numpy_type !! _float_size self = None).
  { unfold float_size_to_numpy_type. cbn [list_to_map foldr]. 
    rewrite !lookup_insert_ne, lookup_empty; [done| |].
    - intros E. apply Hfs. rewrite <- E. by apply (bool_decide_unpack _).
    - intros E. apply Hfs. rewrite <- E. by apply (bool_decide_unpack _). }
  unfold identify_possible_improvements.
  rewrite float_analyzer_loop by done. split.
  - by intros ->.
  - intros Hcols. destruct (columns_of_kind self "float") as [|col later]; [done|].
    cbn [float_columns_loop]. unfold dict_get. rewrite Hmiss. by cbn.
Qed.

Lemma float_analyzer_needs_valid_size_witness :
  _flag_float_column_improvements
    {| _all_possible_improvements := ∅; _dataframe_has_been_analysed := false;
       _df := MOCK_DF; _categorical_threshold := 15;
       _columns_by_type := _separate_dtypes MOCK_DF; _float_size := 99 |}
  = Raise (KeyError "99").
Proof.
  apply (float_analyzer_needs_valid_size
           {| _all_possible_improvements := ∅; _dataframe_has_been_analysed := false;
              _df := MOCK_DF; _categorical_threshold := 15;
              _columns_by_type := _separate_dtypes MOCK_DF; _float_size := 99 |}).
  - apply (bool_decide_unpack _). vm_compute. reflexivity.
  - vm_compute. discriminate.
Defined.

(** ** Analysis followed by materialization *)

Section EndToEnd.
Context (df : DataFrame) (Hwf : unique_columns df).
Implicit Types (self : DataFrameChecker) (col : string).

(** The first analysis of a checker without recommendations leaves, for a
    column of one partition, that partition's analyzer's answer. *)
Lemma first_analysis_entry self col :
  checker_inv df self -> _all_possible_improvements self = ∅ ->
  (col ∈ columns_of_kind self "int" ->
   _all_possible_improvements (after (identify_possible_improvements self)) !! col
   = int_answer df col) /\
  (col ∈ columns_of_kind self "object" ->
   _all_possible_improvements (after (identify_possible_improvements self)) !! col
   = string_answer df (_categorical_threshold self) col).
Proof.
  intros Hinv Hempty. rewrite (identify_entries df Hwf self col Hinv).
  unfold merged_entry. rewrite Hempty, lookup_empty.
  destruct (partitions_disjoint df Hwf self col Hinv) as (Hfi & Hfo & Hio).
  destruct (entry_in_partition self col) as (Hf & Hi & Hs). split; intros Hcol.
  - destruct (string_entry self col) eqn:Es; [destruct Hio; [done|by apply Hs]|].
    destruct (float_entry self col) eqn:Ef; [destruct Hfi; [by apply Hf|done]|].
    unfold int_entry. rewrite decide_True, (inv_df _ _ Hinv) by done.
    by destruct (int_answer df col).
  - destruct (int_entry self col) eqn:Ei; [destruct Hio; [by apply Hi|done]|].
    destruct (float_entry self col) eqn:Ef; [destruct Hfo; [by apply Hf|done]|].
    unfold string_entry. rewrite decide_True, (inv_df _ _ Hinv) by done.
    by destruct (string_answer df _ col).
Qed.
End EndToEnd.

(** X15.  Analysis followed by materialization, on a fresh checker.  An
    int32 or int64 column comes out with its cells unchanged, at the smallest
    of the widths 8, 16, 32 that contains its minimum and maximum, and at its
    own width when none of them does.  A string column comes out with its
    cells unchanged, categorical when its number of distinct values is at most
    the threshold and as it was otherwise. *)
Theorem analysis_then_materialization
    df categorical_threshold float_size fresh new col :
  unique_columns df ->
  __init__ df categorical_threshold float_size = Ok fresh ->
  returned (cast_dataframe_to_lower_memory_version (run fresh [Identify])) = Ok new ->
  (forall w0 cells lo hi,
     getitem df col = Ok (IntSeries w0 cells) -> w0 = W32 \/ w0 = W64 ->
     is_minimum lo cells -> is_maximum hi cells ->
     getitem new col = Ok (IntSeries (default w0 (smallest_fitting_width lo hi)) cells)) /\
  (forall cells n,
     getitem df col = Ok (ObjectSeries cells) ->
     series_nunique (ObjectSeries cells) = Ok n ->
     getitem new col = Ok (if decide (n <= categorical_threshold)
                           then CategorySeries cells else ObjectSeries cells)).
Proof.
  intros Hwf Hinit Hnew.
  pose proof (init_inv df _ _ _ Hinit) as Hinv.
  pose proof (identify_inv df Hwf fresh Hinv) as Hinv'.
  apply init_Ok in Hinit as [_ ->].
  set (fresh := fresh_checker df categorical_threshold float_size) in *.
  change (run fresh [Identify]) with (after (identify_possible_improvements fresh)) in Hnew.
  destruct (first_analysis_entry df Hwf fresh col Hinv eq_refl) as (Hint & Hobj).
  split.
  - intros w0 cells lo hi Hget Hw0 Hlo%list_min_is_minimum Hhi%list_max_is_maximum.
    assert (Hcol : col ∈ columns_of_kind fresh "int").
    { rewrite (kind_columns df fresh "int" Hinv) by (by apply (bool_decide_unpack _)).
      apply select_dtypes_elem. exists (IntSeries w0 cells).
      split; [by apply getitem_Ok_elem|]. by destruct Hw0 as [->| ->]. }
    specialize (Hint Hcol). unfold int_answer in Hint.
    rewrite Hget, Hlo, Hhi in Hint. cbn [chosen_width] in Hint.
    assert (Hget0 : getitem (_df (after (identify_possible_improvements fresh))) col
                    = Ok (IntSeries w0 cells)) by by rewrite (inv_df _ _ Hinv').
    destruct (cast_columns_spec _ new col _ Hnew Hget0) as (s' & Hget' & Hcast).
    rewrite Hget'. rewrite Hint in Hcast.
    destruct (smallest_fitting_width lo hi) as [w|] eqn:Ew; cbn in Hcast |- *.
    + destruct (recommended_int_cast df Hwf _ col w0 cells (Int w) Hinv' Hget)
        as (w' & [= <-] & Hcast'); [by rewrite Hint|].
      rewrite Hcast in Hcast'. by injection Hcast' as ->.
    + by subst.
  - intros cells n Hget [= <-].
    assert (Hcol : col ∈ columns_of_kind fresh "object").
    { rewrite (kind_columns df fresh "object" Hinv) by (by apply (bool_decide_unpack _)).
      apply select_dtypes_elem. exists (ObjectSeries cells).
      split; [by apply getitem_Ok_elem|done]. }
    specialize (Hobj Hcol). unfold string_answer in Hobj. rewrite Hget in Hobj.
    assert (Hget0 : getitem (_df (after (identify_possible_improvements fresh))) col
                    = Ok (ObjectSeries cells)) by by rewrite (inv_df _ _ Hinv').
    destruct (cast_columns_spec _ new col _ Hnew Hget0) as (s' & Hget' & Hcast).
    rewrite Hget'. rewrite Hobj in Hcast.
    change (_categorical_threshold fresh) with categorical_threshold in Hcast.
    case_decide; cbn in Hcast.
    + by injection Hcast as <-.
    + by subst.
Qed.

Lemma analysis_then_materialization_witness :
  getitem LOWER_MEMORY_DF "int_smaller_than_int64"
  = Ok (IntSeries
          (default W64 (smallest_fitting_width (-9223372036854775808) 9223372036854775807))
          [-9223372036854775808; 0; 0; 0; 9223372036854775807]).
Proof.
  destruct (analysis_then_materialization MOCK_DF 15 16 (fresh_checker MOCK_DF 15 16)
              LOWER_MEMORY_DF "int_smaller_than_int64") as (Hint & _).
  - apply (bool_decide_unpack _). vm_compute. reflexivity.
  - reflexivity.
  - vm_compute. reflexivity.
  - apply (Hint W64 [-9223372036854775808; 0; 0; 0; 9223372036854775807]).
    + vm_compute. reflexivity.
    + right. reflexivity.
    + apply list_min_is_minimum. reflexivity.
    + apply list_max_is_maximum. reflexivity.
Defined.
